(** * mock-itr-scenario-mcp: scenario model, builders, validator, catalog
      and assignment handlers

    A shallow embedding of [models/enums.py] and of [server.py]: the tool
    handlers, the two resources, and the functions that locate and load
    the templates.  Python values that cross the tool boundary are JSON
    values; a [dict] is an association list in insertion order; a [str] is
    its UTF-8 byte string; a handler returns the value it hands to
    [json.dumps].  The module [models/scenario.py] is not part of the
    sources at hand: its entities and its two conversions are modelled from
    the specification and are marked as such. *)

From Stdlib Require Import String Ascii List ZArith QArith Bool DecimalString Lia.
Import ListNotations.

Local Open Scope string_scope.
Local Open Scope list_scope.

(* ===================================================================== *)
(** ** Python values *)
(* ===================================================================== *)

(** A JSON document as Python holds it after [json.load]: [None], [bool],
    [int], [float], [str], [list], and [dict] with its keys in insertion
    order.  A float is modelled by the rational it denotes; the handlers
    only store and copy floats. *)
#[warnings="-register-all"]
Inductive json : Type :=
| JNull : json
| JBool : bool -> json
| JInt : Z -> json
| JFloat : Q -> json
| JStr : string -> json
| JList : list json -> json
| JObj : list (string * json) -> json.

(** An object with string keys, in insertion order.  Python keeps the keys
    of a [dict] distinct; a lookup takes the first entry of the key. *)
Definition dict (V : Type) : Type := list (string * V).

(** [d.get(key)]: the value stored under [key], [None] when absent. *)
Fixpoint dict_get {V : Type} (key : string) (d : dict V) : option V :=
  match d with
  | [] => None
  | (k, v) :: rest => if String.eqb k key then Some v else dict_get key rest
  end.

(** [list(d.keys())]. *)
Definition dict_keys {V : Type} (d : dict V) : list string := map fst d.

(** [d.get(key, default)]. *)
Definition get_or {V : Type} (key : string) (default : V) (d : dict V) : V :=
  match dict_get key d with Some v => v | None => default end.

(** Truth value of a Python object, as [if x:] and [not x] test it. *)
Definition truthy (v : json) : bool :=
  match v with
  | JNull => false
  | JBool b => b
  | JInt z => negb (Z.eqb z 0)
  | JFloat q => negb (Z.eqb (Qnum q) 0)
  | JStr s => negb (String.eqb s "")
  | JList l => match l with [] => false | _ :: _ => true end
  | JObj o => match o with [] => false | _ :: _ => true end
  end.

(** Truth value of a Python [str]: false exactly for the empty string. *)
Definition str_truthy (s : string) : bool :=
  match s with EmptyString => false | String _ _ => true end.

(** Truth value of an optional value read with [arguments.get(key)]. *)
Definition opt_truthy {A : Type} (t : A -> bool) (o : option A) : bool :=
  match o with None => false | Some a => t a end.

(** A byte of a UTF-8 string continues a code point when its two top bits
    are [10]. *)
Definition is_continuation (c : ascii) : bool :=
  let n := nat_of_ascii c in (128 <=? n)%nat && (n <? 192)%nat.

(** [len(s)] of a Python [str]: the number of code points, that is, of the
    bytes that start one. *)
Fixpoint py_len (s : string) : nat :=
  match s with
  | EmptyString => 0
  | String c rest => (if is_continuation c then 0 else 1) + py_len rest
  end.

(** [hay.startswith(needle)]. *)
Fixpoint starts_with (needle hay : string) : bool :=
  match needle, hay with
  | EmptyString, _ => true
  | String _ _, EmptyString => false
  | String a n', String b h' => Ascii.eqb a b && starts_with n' h'
  end.

(** [needle in hay] for two strings: [needle] occurs at some position. *)
Fixpoint str_contains (needle hay : string) : bool :=
  starts_with needle hay ||
  match hay with
  | EmptyString => false
  | String _ h' => str_contains needle h'
  end.

(* ===================================================================== *)
(** ** models/enums.py *)
(* ===================================================================== *)

Inductive BizType : Type := INDIVIDUAL_BIZ | NON_BIZ | CORP.

Definition BizType_value (b : BizType) : string :=
  match b with
  | INDIVIDUAL_BIZ => "individual_biz"
  | NON_BIZ => "non_biz"
  | CORP => "corp"
  end.

(** [BizType(s)]: the member whose value is [s]; [None] stands for the
    [ValueError] Python raises when there is none. *)
Definition BizType_of_value (s : string) : option BizType :=
  if String.eqb s "individual_biz" then Some INDIVIDUAL_BIZ
  else if String.eqb s "non_biz" then Some NON_BIZ
  else if String.eqb s "corp" then Some CORP
  else None.

Inductive ErrorType : Type :=
| NO_TAX_RETURN | NO_BIZ | CALC_ERROR | ALREADY_REFUNDED | NOT_COMPLETE
| NO_CONT_BIZ
| AUTH_EXPIRED | AUTH_NOT_COMPLETE | LOGIN_FAILED | SESSION_EXPIRED
| INVALID_SSN.

(** Iteration order of [for e in ErrorType]: definition order. *)
Definition ErrorType_members : list ErrorType :=
  [NO_TAX_RETURN; NO_BIZ; CALC_ERROR; ALREADY_REFUNDED; NOT_COMPLETE;
   NO_CONT_BIZ; AUTH_EXPIRED; AUTH_NOT_COMPLETE; LOGIN_FAILED;
   SESSION_EXPIRED; INVALID_SSN].

Definition ErrorType_value (e : ErrorType) : string :=
  match e with
  | NO_TAX_RETURN => "종소세신고내역없음"
  | NO_BIZ => "사업자없음오류"
  | CALC_ERROR => "계산오류"
  | ALREADY_REFUNDED => "기환급자"
  | NOT_COMPLETE => "미완료"
  | NO_CONT_BIZ => "계속사업자없음"
  | AUTH_EXPIRED => "간편인증토큰만료"
  | AUTH_NOT_COMPLETE => "간편인증미완료"
  | LOGIN_FAILED => "홈택스로그인실패"
  | SESSION_EXPIRED => "세션만료"
  | INVALID_SSN => "주민번호오류"
  end.

(** [ErrorType(s)]: lookup by value over the members in definition order;
    [None] stands for the [ValueError]. *)
Definition ErrorType_of_value (s : string) : option ErrorType :=
  find (fun e => String.eqb (ErrorType_value e) s) ErrorType_members.

Inductive ActionType : Type :=
| CERT_REQUEST | CERT_RESPONSE | CHECK | LOAD | CALC.

Definition ActionType_value (a : ActionType) : string :=
  match a with
  | CERT_REQUEST => "cert_request"
  | CERT_RESPONSE => "cert_response"
  | CHECK => "check"
  | LOAD => "load"
  | CALC => "calc"
  end.

Definition ErrorType_eqb (a b : ErrorType) : bool :=
  match a, b with
  | NO_TAX_RETURN, NO_TAX_RETURN | NO_BIZ, NO_BIZ | CALC_ERROR, CALC_ERROR
  | ALREADY_REFUNDED, ALREADY_REFUNDED | NOT_COMPLETE, NOT_COMPLETE
  | NO_CONT_BIZ, NO_CONT_BIZ | AUTH_EXPIRED, AUTH_EXPIRED
  | AUTH_NOT_COMPLETE, AUTH_NOT_COMPLETE | LOGIN_FAILED, LOGIN_FAILED
  | SESSION_EXPIRED, SESSION_EXPIRED | INVALID_SSN, INVALID_SSN => true
  | _, _ => false
  end.

(** A table keyed by enum members, as the two module-level dicts are. *)
Fixpoint table_get {V : Type} (e : ErrorType) (t : list (ErrorType * V))
  : option V :=
  match t with
  | [] => None
  | (k, v) :: rest => if ErrorType_eqb k e then Some v else table_get e rest
  end.

Definition ERROR_MESSAGES : list (ErrorType * string) :=
  [ (NO_TAX_RETURN, "종합소득세 신고 내역이 없습니다.");
    (NO_BIZ, "사업자 등록 정보가 없습니다.");
    (CALC_ERROR, "환급액 계산 중 오류가 발생했습니다.");
    (ALREADY_REFUNDED, "이미 환급 처리가 완료된 건입니다.");
    (NOT_COMPLETE, "처리가 완료되지 않았습니다.");
    (NO_CONT_BIZ, "계속사업자 정보가 없습니다.");
    (AUTH_EXPIRED, "간편인증 토큰이 만료되었습니다.");
    (AUTH_NOT_COMPLETE, "간편인증이 완료되지 않았습니다.");
    (LOGIN_FAILED, "홈택스 로그인에 실패했습니다.");
    (SESSION_EXPIRED, "세션이 만료되었습니다.");
    (INVALID_SSN, "주민등록번호가 올바르지 않습니다.") ].

Definition ERROR_DEFAULT_ACTION : list (ErrorType * ActionType) :=
  [ (NO_TAX_RETURN, LOAD);
    (NO_BIZ, LOAD);
    (CALC_ERROR, LOAD);
    (ALREADY_REFUNDED, LOAD);
    (NOT_COMPLETE, LOAD);
    (NO_CONT_BIZ, LOAD);
    (AUTH_EXPIRED, CERT_RESPONSE);
    (AUTH_NOT_COMPLETE, CERT_RESPONSE);
    (LOGIN_FAILED, CHECK);
    (SESSION_EXPIRED, CHECK);
    (INVALID_SSN, CHECK) ].

(** [ERROR_MESSAGES.get(error_type, fallback)], with the fallback the
    handler passes. *)
Definition message_for (e : ErrorType) : string :=
  match table_get e ERROR_MESSAGES with
  | Some m => m
  | None => "알 수 없는 오류가 발생했습니다."
  end.

(** [ERROR_DEFAULT_ACTION.get(error_type, ActionType.LOAD)]. *)
Definition default_stage_for (e : ErrorType) : ActionType :=
  match table_get e ERROR_DEFAULT_ACTION with
  | Some a => a
  | None => LOAD
  end.

(* ===================================================================== *)
(** ** models/scenario.py: the scenario entities *)
(* ===================================================================== *)

(** Modelled from the spec: [models/scenario.py] (the entity classes
    [UserInfo], [TaxpayerInfo], [RefundResult], [ActionConfig],
    [ProgressStep], [ProgressConfig], [ScenarioConfig]) is missing; the
    records below carry the attributes and defaults of section 3 of the
    specification, with the attribute names the handlers and the tests
    use.  The auxiliary [RefundItem] and [BizLocation] objects and the
    further business-registration attributes, which the specification does
    not name, are left out. *)
Record UserInfo : Type := mkUserInfo {
  name : string;
  phone : option string;
  birthday : option string
}.

Record TaxpayerInfo : Type := mkTaxpayerInfo {
  tin : option string
}.

Record RefundResult : Type := mkRefundResult {
  total_refund : Z;
  창중감_환급액 : Z;
  고용증대_환급액 : Z;
  사회보험료_환급액 : Z
}.

Record ActionConfig : Type := mkActionConfig {
  success : bool;
  error_type : option string;
  error_msg : option string
}.

Record ProgressStep : Type := mkProgressStep {
  step_name : string;
  progress : string;
  delay_seconds : Q
}.

Record ProgressConfig : Type := mkProgressConfig {
  enabled : bool;
  queue_name : string;
  steps : list ProgressStep
}.

Record ScenarioConfig : Type := mkScenarioConfig {
  scenario_name : string;
  description : string;
  user_info : UserInfo;
  taxpayer_info : TaxpayerInfo;
  biz_type : BizType;
  refund_result : RefundResult;
  cert_request_config : ActionConfig;
  cert_response_config : ActionConfig;
  check_config : ActionConfig;
  load_config : ActionConfig;
  progress_config : ProgressConfig
}.

(** Modelled from the spec: the defaults of three string attributes
    ([scenario_name], [description], [queue_name]) exist, since
    [ScenarioConfig()] is constructible, but are documented nowhere; they
    are kept abstract. *)
Record ModelDefaults : Type := mkModelDefaults {
  default_scenario_name : string;
  default_description : string;
  default_queue_name : string
}.

(** Modelled from the spec: the documented defaults of each entity, that
    is, what the class constructors fill in for omitted arguments. *)
Definition UserInfo_default : UserInfo :=
  {| name := "테스트사용자"; phone := None; birthday := None |}.

Definition TaxpayerInfo_default : TaxpayerInfo := {| tin := None |}.

Definition RefundResult_default : RefundResult :=
  {| total_refund := 0; 창중감_환급액 := 0; 고용증대_환급액 := 0;
     사회보험료_환급액 := 0 |}.

Definition ActionConfig_default : ActionConfig :=
  {| success := true; error_type := None; error_msg := None |}.

Definition delay_seconds_default : Q := 0.5.

Definition ProgressConfig_default (D : ModelDefaults) : ProgressConfig :=
  {| enabled := false; queue_name := default_queue_name D; steps := [] |}.

Definition ScenarioConfig_default (D : ModelDefaults) : ScenarioConfig :=
  {| scenario_name := default_scenario_name D;
     description := default_description D;
     user_info := UserInfo_default;
     taxpayer_info := TaxpayerInfo_default;
     biz_type := INDIVIDUAL_BIZ;
     refund_result := RefundResult_default;
     cert_request_config := ActionConfig_default;
     cert_response_config := ActionConfig_default;
     check_config := ActionConfig_default;
     load_config := ActionConfig_default;
     progress_config := ProgressConfig_default D |}.

(* ===================================================================== *)
(** ** models/scenario.py: [to_dict] and [from_dict] *)
(* ===================================================================== *)

(** Outcome of Python code that may raise: the value, or [str(e)] of the
    exception.  An exception raised by [from_dict] is the ParseError of the
    specification. *)
Inductive result (A : Type) : Type :=
| Ok : A -> result A
| Raise : string -> result A.

Arguments Ok {A} _.
Arguments Raise {A} _.

Definition bind {A B : Type} (m : result A) (k : A -> result B) : result B :=
  match m with
  | Ok a => k a
  | Raise e => Raise e
  end.

Notation "'let*' x ':=' m 'in' k" := (bind m (fun x => k))
  (at level 10, x name, m at level 100, k at level 200).

(** Modelled from the spec: coercion of a present value to the declared
    type of a field (section 4.2: "if present, coerce to the declared type";
    a value that cannot be coerced is a ParseError).  An optional field
    accepts [None]; a float field accepts an integer. *)
Definition as_str (v : json) : result string :=
  match v with JStr s => Ok s | _ => Raise "str expected" end.

Definition as_opt_str (v : json) : result (option string) :=
  match v with
  | JNull => Ok None
  | JStr s => Ok (Some s)
  | _ => Raise "str or None expected"
  end.

Definition as_int (v : json) : result Z :=
  match v with JInt z => Ok z | _ => Raise "int expected" end.

Definition as_float (v : json) : result Q :=
  match v with
  | JFloat q => Ok q
  | JInt z => Ok (inject_Z z)
  | _ => Raise "float expected"
  end.

Definition as_bool (v : json) : result bool :=
  match v with JBool b => Ok b | _ => Raise "bool expected" end.

Definition as_obj (v : json) : result (dict json) :=
  match v with JObj o => Ok o | _ => Raise "mapping expected" end.

Definition as_list (v : json) : result (list json) :=
  match v with JList l => Ok l | _ => Raise "sequence expected" end.

Definition as_biz_type (v : json) : result BizType :=
  match v with
  | JStr s =>
      match BizType_of_value s with
      | Some b => Ok b
      | None => Raise "biz_type is not one of the allowed values"
      end
  | _ => Raise "biz_type is not one of the allowed values"
  end.

(** Modelled from the spec: one field of [from_representation]: the
    default when the key is absent, the coerced value when it is present. *)
Definition field {A : Type} (key : string) (coerce : json -> result A)
  (default : A) (d : dict json) : result A :=
  match dict_get key d with
  | None => Ok default
  | Some v => coerce v
  end.

(** Modelled from the spec: a field with no default ([step_name] and
    [progress] of a ProgressStep): an absent key cannot be filled in. *)
Definition required {A : Type} (key : string) (coerce : json -> result A)
  (d : dict json) : result A :=
  match dict_get key d with
  | None => Raise "field required"
  | Some v => coerce v
  end.

(** [[f(x) for x in l]] where [f] may raise: the first failure wins. *)
Fixpoint traverse {A B : Type} (f : A -> result B) (l : list A)
  : result (list B) :=
  match l with
  | [] => Ok []
  | x :: rest =>
      let* y := f x in
      let* ys := traverse f rest in
      Ok (y :: ys)
  end.

Definition opt_str_json (o : option string) : json :=
  match o with None => JNull | Some s => JStr s end.

(** Modelled from the spec: [to_representation] of each entity (section
    4.2): every field is emitted under its attribute name, unset optionals
    as [None], nested objects by their own representation, enumerated
    fields as their string value. *)
Definition UserInfo_to_dict (u : UserInfo) : json :=
  JObj [ ("name", JStr (name u));
         ("phone", opt_str_json (phone u));
         ("birthday", opt_str_json (birthday u)) ].

Definition TaxpayerInfo_to_dict (t : TaxpayerInfo) : json :=
  JObj [ ("tin", opt_str_json (tin t)) ].

Definition RefundResult_to_dict (r : RefundResult) : json :=
  JObj [ ("total_refund", JInt (total_refund r));
         ("창중감_환급액", JInt (창중감_환급액 r));
         ("고용증대_환급액", JInt (고용증대_환급액 r));
         ("사회보험료_환급액", JInt (사회보험료_환급액 r)) ].

Definition ActionConfig_to_dict (a : ActionConfig) : json :=
  JObj [ ("success", JBool (success a));
         ("error_type", opt_str_json (error_type a));
         ("error_msg", opt_str_json (error_msg a)) ].

Definition ProgressStep_to_dict (p : ProgressStep) : json :=
  JObj [ ("step_name", JStr (step_name p));
         ("progress", JStr (progress p));
         ("delay_seconds", JFloat (delay_seconds p)) ].

Definition ProgressConfig_to_dict (p : ProgressConfig) : json :=
  JObj [ ("enabled", JBool (enabled p));
         ("queue_name", JStr (queue_name p));
         ("steps", JList (map ProgressStep_to_dict (steps p))) ].

Definition to_dict (s : ScenarioConfig) : json :=
  JObj [ ("scenario_name", JStr (scenario_name s));
         ("description", JStr (description s));
         ("user_info", UserInfo_to_dict (user_info s));
         ("taxpayer_info", TaxpayerInfo_to_dict (taxpayer_info s));
         ("biz_type", JStr (BizType_value (biz_type s)));
         ("refund_result", RefundResult_to_dict (refund_result s));
         ("cert_request_config", ActionConfig_to_dict (cert_request_config s));
         ("cert_response_config",
           ActionConfig_to_dict (cert_response_config s));
         ("check_config", ActionConfig_to_dict (check_config s));
         ("load_config", ActionConfig_to_dict (load_config s));
         ("progress_config", ProgressConfig_to_dict (progress_config s)) ].

(** Modelled from the spec: [from_representation] of each entity (section
    4.2): a nested object that is not a mapping is a ParseError. *)
Definition UserInfo_from_dict (v : json) : result UserInfo :=
  let* d := as_obj v in
  let* n := field "name" as_str (name UserInfo_default) d in
  let* p := field "phone" as_opt_str None d in
  let* b := field "birthday" as_opt_str None d in
  Ok {| name := n; phone := p; birthday := b |}.

Definition TaxpayerInfo_from_dict (v : json) : result TaxpayerInfo :=
  let* d := as_obj v in
  let* t := field "tin" as_opt_str None d in
  Ok {| tin := t |}.

Definition RefundResult_from_dict (v : json) : result RefundResult :=
  let* d := as_obj v in
  let* t := field "total_refund" as_int 0%Z d in
  let* a := field "창중감_환급액" as_int 0%Z d in
  let* b := field "고용증대_환급액" as_int 0%Z d in
  let* c := field "사회보험료_환급액" as_int 0%Z d in
  Ok {| total_refund := t; 창중감_환급액 := a; 고용증대_환급액 := b;
        사회보험료_환급액 := c |}.

Definition ActionConfig_from_dict (v : json) : result ActionConfig :=
  let* d := as_obj v in
  let* s := field "success" as_bool true d in
  let* t := field "error_type" as_opt_str None d in
  let* m := field "error_msg" as_opt_str None d in
  Ok {| success := s; error_type := t; error_msg := m |}.

Definition ProgressStep_from_dict (v : json) : result ProgressStep :=
  let* d := as_obj v in
  let* n := required "step_name" as_str d in
  let* p := required "progress" as_str d in
  let* t := field "delay_seconds" as_float delay_seconds_default d in
  Ok {| step_name := n; progress := p; delay_seconds := t |}.

Definition as_steps (v : json) : result (list ProgressStep) :=
  let* l := as_list v in traverse ProgressStep_from_dict l.

Definition ProgressConfig_from_dict (D : ModelDefaults) (v : json)
  : result ProgressConfig :=
  let* d := as_obj v in
  let* e := field "enabled" as_bool false d in
  let* q := field "queue_name" as_str (default_queue_name D) d in
  let* s := field "steps" as_steps [] d in
  Ok {| enabled := e; queue_name := q; steps := s |}.

Definition from_dict (D : ModelDefaults) (v : json) : result ScenarioConfig :=
  let* d := as_obj v in
  let* sn := field "scenario_name" as_str (default_scenario_name D) d in
  let* ds := field "description" as_str (default_description D) d in
  let* ui := field "user_info" UserInfo_from_dict UserInfo_default d in
  let* ti :=
    field "taxpayer_info" TaxpayerInfo_from_dict TaxpayerInfo_default d in
  let* bt := field "biz_type" as_biz_type INDIVIDUAL_BIZ d in
  let* rr :=
    field "refund_result" RefundResult_from_dict RefundResult_default d in
  let* c1 :=
    field "cert_request_config" ActionConfig_from_dict ActionConfig_default d in
  let* c2 :=
    field "cert_response_config" ActionConfig_from_dict ActionConfig_default d in
  let* c3 :=
    field "check_config" ActionConfig_from_dict ActionConfig_default d in
  let* c4 :=
    field "load_config" ActionConfig_from_dict ActionConfig_default d in
  let* pc :=
    field "progress_config" (ProgressConfig_from_dict D)
      (ProgressConfig_default D) d in
  Ok {| scenario_name := sn; description := ds; user_info := ui;
        taxpayer_info := ti; biz_type := bt; refund_result := rr;
        cert_request_config := c1; cert_response_config := c2;
        check_config := c3; load_config := c4; progress_config := pc |}.

(* ===================================================================== *)
(** ** server.py: tool handlers *)
(* ===================================================================== *)

(** The [arguments] mapping of each tool is read through the keys and the
    value types its [inputSchema] declares; a key that is absent is [None].
    [or_default o d] is [arguments.get(key, d)]. *)
Definition or_default {A : Type} (o : option A) (d : A) : A :=
  match o with Some a => a | None => d end.

(** [v.get(key, default)] on a JSON value: a value that is not a mapping
    has no [get] and raises AttributeError. *)
Definition obj_get (key : string) (default : json) (v : json) : result json :=
  match v with
  | JObj d => Ok (get_or key default d)
  | _ => Raise "AttributeError"
  end.

(** *** handle_template_list *)

(** The three [continue] tests of the loop body. *)
Definition skipped (category template_id : string) : bool :=
  if negb (String.eqb category "all") then
    (String.eqb category "normal" && str_contains "ERR" template_id)
    || (String.eqb category "error" && negb (str_contains "ERR" template_id))
    || (String.eqb category "corp" && negb (str_contains "CORP" template_id))
  else false.

(** The summary appended for one template. *)
Definition template_summary (template_id : string) (template_data : json)
  : result json :=
  let* refund_result := obj_get "refund_result" (JObj []) template_data in
  let* total_refund := obj_get "total_refund" (JInt 0) refund_result in
  let* biz_type := obj_get "biz_type" (JStr "unknown") template_data in
  let* description := obj_get "description" (JStr "") template_data in
  Ok (JObj [ ("template_id", JStr template_id);
             ("description", description);
             ("total_refund", total_refund);
             ("biz_type", biz_type) ]).

(** [for template_id, template_data in templates.items()]: the summaries
    in iteration order. *)
Fixpoint template_summaries (category : string) (templates : dict json)
  : result (list json) :=
  match templates with
  | [] => Ok []
  | (template_id, template_data) :: rest =>
      if skipped category template_id then template_summaries category rest
      else
        let* entry := template_summary template_id template_data in
        let* others := template_summaries category rest in
        Ok (entry :: others)
  end.

(** [templates] is the mapping [load_templates()] returns. *)
Definition handle_template_list (templates : dict json)
  (category : option string) : result json :=
  let category := or_default category "all" in
  let* entries := template_summaries category templates in
  Ok (JObj [ ("templates", JList entries);
             ("count", JInt (Z.of_nat (length entries))) ]).

(** *** handle_scenario_build_error *)

Record build_error_arguments : Type := mk_build_error_arguments {
  be_user_name : option string;
  be_error_type : option string;
  be_error_msg : option string;
  be_action : option string
}.

(** The stage the failure is attached to: the given [action], the default
    action of the error type when none is given. *)
Definition resolved_action (error_type : ErrorType) (action_str : string)
  : string :=
  if negb (str_truthy action_str)
  then ActionType_value (default_stage_for error_type)
  else action_str.

(** The message of the failure: the given one, the catalog's when none is
    given. *)
Definition resolved_message (error_type : ErrorType) (error_msg : string)
  : string :=
  if negb (str_truthy error_msg) then message_for error_type else error_msg.

Definition set_cert_request_config (c : ActionConfig) (s : ScenarioConfig)
  : ScenarioConfig :=
  {| scenario_name := scenario_name s; description := description s;
     user_info := user_info s; taxpayer_info := taxpayer_info s;
     biz_type := biz_type s; refund_result := refund_result s;
     cert_request_config := c;
     cert_response_config := cert_response_config s;
     check_config := check_config s; load_config := load_config s;
     progress_config := progress_config s |}.

Definition set_cert_response_config (c : ActionConfig) (s : ScenarioConfig)
  : ScenarioConfig :=
  {| scenario_name := scenario_name s; description := description s;
     user_info := user_info s; taxpayer_info := taxpayer_info s;
     biz_type := biz_type s; refund_result := refund_result s;
     cert_request_config := cert_request_config s;
     cert_response_config := c;
     check_config := check_config s; load_config := load_config s;
     progress_config := progress_config s |}.

Definition set_check_config (c : ActionConfig) (s : ScenarioConfig)
  : ScenarioConfig :=
  {| scenario_name := scenario_name s; description := description s;
     user_info := user_info s; taxpayer_info := taxpayer_info s;
     biz_type := biz_type s; refund_result := refund_result s;
     cert_request_config := cert_request_config s;
     cert_response_config := cert_response_config s;
     check_config := c; load_config := load_config s;
     progress_config := progress_config s |}.

Definition set_load_config (c : ActionConfig) (s : ScenarioConfig)
  : ScenarioConfig :=
  {| scenario_name := scenario_name s; description := description s;
     user_info := user_info s; taxpayer_info := taxpayer_info s;
     biz_type := biz_type s; refund_result := refund_result s;
     cert_request_config := cert_request_config s;
     cert_response_config := cert_response_config s;
     check_config := check_config s; load_config := c;
     progress_config := progress_config s |}.

(** The scenario the handler assembles once the error type is known: the
    message and action defaults, the constructor call, and the branch that
    stores the failing ActionConfig. *)
Definition build_error_scenario (D : ModelDefaults) (user_name : string)
  (error_type : ErrorType) (error_msg action_str : string) : ScenarioConfig :=
  let error_msg := resolved_message error_type error_msg in
  let action_str := resolved_action error_type action_str in
  let scenario :=
    {| scenario_name :=
         "에러_" ++ ErrorType_value error_type ++ "_" ++ user_name;
       description :=
         user_name ++ "의 " ++ ErrorType_value error_type ++ " 에러 시나리오";
       user_info :=
         {| name := user_name; phone := None; birthday := None |};
       taxpayer_info := TaxpayerInfo_default;
       biz_type := INDIVIDUAL_BIZ;
       refund_result := RefundResult_default;
       cert_request_config := ActionConfig_default;
       cert_response_config := ActionConfig_default;
       check_config := ActionConfig_default;
       load_config := ActionConfig_default;
       progress_config := ProgressConfig_default D |} in
  let error_config :=
    {| success := false;
       error_type := Some (ErrorType_value error_type);
       error_msg := Some error_msg |} in
  if String.eqb action_str "cert_request"
  then set_cert_request_config error_config scenario
  else if String.eqb action_str "cert_response"
  then set_cert_response_config error_config scenario
  else if String.eqb action_str "check"
  then set_check_config error_config scenario
  else set_load_config error_config scenario.

(** The reply for an [error_type] that is no member of [ErrorType]. *)
Definition unknown_error_type (error_type_str : string) : json :=
  JObj [ ("error", JStr ("Unknown error type: " ++ error_type_str));
         ("available_types",
           JList (map (fun e => JStr (ErrorType_value e)) ErrorType_members)) ].

Definition handle_scenario_build_error (D : ModelDefaults)
  (arguments : build_error_arguments) : json :=
  let user_name := or_default (be_user_name arguments) "테스트사용자" in
  let error_type_str := or_default (be_error_type arguments) "" in
  let error_msg := or_default (be_error_msg arguments) "" in
  let action_str := or_default (be_action arguments) "" in
  match ErrorType_of_value error_type_str with
  | None => unknown_error_type error_type_str
  | Some error_type =>
      to_dict (build_error_scenario D user_name error_type error_msg action_str)
  end.

(** *** handle_scenario_build_progress *)

(** One item of the [steps] argument: a mapping whose three keys may each
    be absent. *)
Record step_argument : Type := mk_step_argument {
  sa_step_name : option string;
  sa_progress : option string;
  sa_delay_seconds : option Q
}.

Record build_progress_arguments : Type := mk_build_progress_arguments {
  bp_user_name : option string;
  bp_total_refund : option Z;
  bp_queue_name : option string;
  bp_steps : option (list step_argument)
}.

(** The literal list substituted for an empty [steps_data]. *)
Definition default_steps_data : list step_argument :=
  [ {| sa_step_name := Some "홈택스 로그인"; sa_progress := Some "10%";
       sa_delay_seconds := Some 0.5 |};
    {| sa_step_name := Some "신고내역 조회"; sa_progress := Some "30%";
       sa_delay_seconds := Some 1.0 |};
    {| sa_step_name := Some "환급액 계산"; sa_progress := Some "60%";
       sa_delay_seconds := Some 1.5 |};
    {| sa_step_name := Some "결과 생성"; sa_progress := Some "90%";
       sa_delay_seconds := Some 0.5 |} ].

(** The body of the list comprehension. *)
Definition make_step (s : step_argument) : ProgressStep :=
  {| step_name := or_default (sa_step_name s) "";
     progress := or_default (sa_progress s) "0%";
     delay_seconds := or_default (sa_delay_seconds s) 0.5 |}.

(** The scenario the handler assembles. *)
Definition build_progress_scenario (arguments : build_progress_arguments)
  : ScenarioConfig :=
  let user_name := or_default (bp_user_name arguments) "테스트사용자" in
  let total_refund := or_default (bp_total_refund arguments) 0%Z in
  let queue_name := or_default (bp_queue_name arguments) "refund-search.fifo" in
  let steps_data := or_default (bp_steps arguments) [] in
  let steps_data :=
    match steps_data with
    | [] => default_steps_data
    | _ :: _ => steps_data
    end in
  let steps := map make_step steps_data in
  {| scenario_name := "진행률테스트_" ++ user_name;
     description := user_name ++ "의 진행률 전송 테스트 시나리오";
     user_info := {| name := user_name; phone := None; birthday := None |};
     taxpayer_info := TaxpayerInfo_default;
     biz_type := INDIVIDUAL_BIZ;
     refund_result :=
       {| total_refund := total_refund; 창중감_환급액 := 0;
          고용증대_환급액 := 0; 사회보험료_환급액 := 0 |};
     cert_request_config := ActionConfig_default;
     cert_response_config := ActionConfig_default;
     check_config := ActionConfig_default;
     load_config := ActionConfig_default;
     progress_config :=
       {| enabled := true; queue_name := queue_name; steps := steps |} |}.

Definition handle_scenario_build_progress
  (arguments : build_progress_arguments) : json :=
  to_dict (build_progress_scenario arguments).

(** *** handle_scenario_validate *)

(** [x and len(x) != n] for an optional string attribute. *)
Definition set_with_other_length (x : option string) (n : nat) : bool :=
  match x with
  | None => false
  | Some s => str_truthy s && negb (Nat.eqb (py_len s) n)
  end.

(** The two lists as the [try] statement leaves them: [(errors, warnings)].
    An exception of [from_dict] is caught before any rule has run. *)
Definition validation_lists (D : ModelDefaults) (scenario_data : json)
  : list string * list string :=
  match from_dict D scenario_data with
  | Ok scenario =>
      let warnings :=
        (match biz_type scenario with
         | INDIVIDUAL_BIZ =>
             if Z.eqb (total_refund (refund_result scenario)) 0
             then ["개인사업자 시나리오인데 환급액이 0원입니다."]
             else []
         | _ => []
         end)
        ++ (if set_with_other_length (phone (user_info scenario)) 11
            then ["전화번호가 11자리가 아닙니다."] else []) in
      let errors :=
        (if set_with_other_length (birthday (user_info scenario)) 8
         then ["생년월일은 YYYYMMDD 형식이어야 합니다."] else [])
        ++ (if set_with_other_length (tin (taxpayer_info scenario)) 18
            then ["납세자관리번호는 18자리여야 합니다."] else []) in
      (errors, warnings)
  | Raise e => ([("시나리오 파싱 오류: " ++ e)%string], [])
  end.

Definition handle_scenario_validate (D : ModelDefaults)
  (scenario : option json) : json :=
  let scenario_data := or_default scenario (JObj []) in
  let (errors, warnings) := validation_lists D scenario_data in
  JObj [ ("valid", JBool (Nat.eqb (length errors) 0));
         ("errors", JList (map JStr errors));
         ("warnings", JList (map JStr warnings)) ].

(** *** handle_scenario_assign *)

Record assign_arguments : Type := mk_assign_arguments {
  as_user_ern : option string;
  as_scenario : option json;
  as_template_id : option string
}.

(** What a handler does towards the store: it replies at once, or it runs
    the [try] block, whose only observable act is [table.put_item(Item)],
    and replies according to how that block ends: normally, or with an
    exception [e] of which [str(e)] is kept. *)
Inductive store_call : Type :=
| Reply : json -> store_call
| PutItem : json -> (result unit -> json) -> store_call.

(** The handler against a given store. *)
Definition run_store (put_item : json -> result unit) (c : store_call)
  : json :=
  match c with
  | Reply r => r
  | PutItem item k => k (put_item item)
  end.

(** The two ends of the [try] block. *)
Definition assign_reply (user_ern : string) (scenario : json)
  (outcome : result unit) : json :=
  match outcome with
  | Ok _ =>
      JObj [ ("success", JBool true);
             ("user_ern", JStr user_ern);
             ("message",
               JStr ("시나리오가 " ++ user_ern ++ "에 할당되었습니다.")) ]
  | Raise e =>
      JObj [ ("success", JBool false);
             ("error", JStr ("DynamoDB 저장 실패: " ++ e));
             ("user_ern", JStr user_ern);
             ("scenario", scenario);
             ("note",
               JStr ("DynamoDB에 저장하지 못했습니다. "
                     ++ "위 시나리오를 수동으로 저장해주세요.")) ]
  end.

Definition assign_item (user_ern : string) (scenario : json) : json :=
  JObj [ ("user_ern", JStr user_ern); ("scenario_config", scenario) ].

Definition template_not_found (template_id : string) (templates : dict json)
  : json :=
  JObj [ ("error", JStr ("Template not found: " ++ template_id));
         ("available_templates", JList (map JStr (dict_keys templates))) ].

(** The two replies that need no lookup. *)
Definition user_ern_required : json :=
  JObj [ ("error", JStr "user_ern is required") ].

Definition scenario_required : json :=
  JObj [ ("error", JStr "Either scenario or template_id is required") ].

(** The [elif template_id: ... else: ...] part of the scenario choice. *)
Definition scenario_of_template (templates : dict json)
  (template_id : option string) : json + json :=
  match template_id with
  | Some t =>
      if str_truthy t then
        match dict_get t templates with
        | None => inl (template_not_found t templates)
        | Some scenario => inr scenario
        end
      else inl scenario_required
  | None => inl scenario_required
  end.

(** The scenario choice: an early reply, or the chosen scenario. *)
Definition chosen_scenario (templates : dict json)
  (scenario_data : option json) (template_id : option string) : json + json :=
  match scenario_data with
  | Some s =>
      if truthy s then inr s else scenario_of_template templates template_id
  | None => scenario_of_template templates template_id
  end.

Definition handle_scenario_assign (templates : dict json)
  (arguments : assign_arguments) : store_call :=
  let user_ern := or_default (as_user_ern arguments) "" in
  let scenario_data := as_scenario arguments in
  let template_id := as_template_id arguments in
  if negb (str_truthy user_ern)
  then Reply user_ern_required
  else
    match chosen_scenario templates scenario_data template_id with
    | inl early => Reply early
    | inr scenario =>
        PutItem (assign_item user_ern scenario)
                (assign_reply user_ern scenario)
    end.

(* ===================================================================== *)
(** ** Reading scenarios and replies *)
(* ===================================================================== *)

(** The four ActionConfig attributes of a scenario, by the stage name the
    [action] argument uses for them. *)
Definition slot_names : list string :=
  ["cert_request"; "cert_response"; "check"; "load"].

Definition slot (stage : string) (s : ScenarioConfig) : option ActionConfig :=
  if String.eqb stage "cert_request" then Some (cert_request_config s)
  else if String.eqb stage "cert_response" then Some (cert_response_config s)
  else if String.eqb stage "check" then Some (check_config s)
  else if String.eqb stage "load" then Some (load_config s)
  else None.

(** [reply[key]] of a reply that is a mapping. *)
Definition json_get (key : string) (v : json) : option json :=
  match v with JObj d => dict_get key d | _ => None end.

(** The [template_id] of one summary. *)
Definition summary_id (entry : json) : option string :=
  match json_get "template_id" entry with
  | Some (JStr id) => Some id
  | _ => None
  end.

Fixpoint summary_ids (entries : list json) : option (list string) :=
  match entries with
  | [] => Some []
  | e :: rest =>
      match summary_id e, summary_ids rest with
      | Some id, Some ids => Some (id :: ids)
      | _, _ => None
      end
  end.

(** The template ids a [template_list] reply lists, in the order of the
    reply, and its [count]. *)
Definition listed_ids (reply : result json) : option (list string) :=
  match reply with
  | Ok v =>
      match json_get "templates" v with
      | Some (JList entries) => summary_ids entries
      | _ => None
      end
  | Raise _ => None
  end.

Definition listed_count (reply : result json) : option json :=
  match reply with
  | Ok v => json_get "count" v
  | Raise _ => None
  end.

(** A template the summary can be read from: a mapping whose
    [refund_result], when present, is a mapping, as in every scenario
    representation. *)
Definition summarizable (template_data : json) : bool :=
  match template_data with
  | JObj d =>
      match dict_get "refund_result" d with
      | None | Some (JObj _) => true
      | Some _ => false
      end
  | _ => false
  end.

Definition catalog_of_representations (templates : dict json) : Prop :=
  Forall (fun entry => summarizable (snd entry) = true) templates.

(* ===================================================================== *)
(** ** server.py: the remaining handlers *)
(* ===================================================================== *)

(** *** Formatting of integers in f-strings *)

(** [str(n)], which is also [f"{n}"], for an [int]. *)
Definition str_of_int (n : Z) : string :=
  NilZero.string_of_int (Z.to_int n).

(** The decimal digits of [abs(n)]. *)
Definition digits_of (n : Z) : list ascii :=
  list_ascii_of_string (NilZero.string_of_uint (N.to_uint (Z.abs_N n))).

(** A comma after every third digit, counted from the units, on the
    digits listed from the units upwards. *)
Fixpoint commas_from_units (units_first : list ascii) : list ascii :=
  match units_first with
  | a :: b :: c :: ((_ :: _) as more) =>
      a :: b :: c :: ","%char :: commas_from_units more
  | short => short
  end.

(** [f"{n:,}"] for an [int]: the sign, then the digits in groups of three
    separated by commas. *)
Definition format_commas (n : Z) : string :=
  ((if Z.ltb n 0 then "-" else "")
   ++ string_of_list_ascii (rev (commas_from_units (rev (digits_of n)))))%string.

(** *** handle_template_load *)

Definition handle_template_load (templates : dict json)
  (template_id : option string) : json :=
  let template_id := or_default template_id "" in
  match dict_get template_id templates with
  | None =>
      JObj [ ("error", JStr ("Template not found: " ++ template_id));
             ("available_templates", JList (map JStr (dict_keys templates))) ]
  | Some template_data => template_data
  end.

(** *** handle_scenario_build_normal *)

Record build_normal_arguments : Type := mk_build_normal_arguments {
  bn_user_name : option string;
  bn_total_refund : option Z;
  bn_biz_type : option string;
  bn_창중감_환급액 : option Z;
  bn_고용증대_환급액 : option Z;
  bn_사회보험료_환급액 : option Z
}.

(** The constructor call, once [BizType(biz_type_str)] has a value. *)
Definition build_normal_scenario (D : ModelDefaults) (user_name : string)
  (total_refund : Z) (biz_type : BizType) (창중감 고용증대 사회보험료 : Z)
  : ScenarioConfig :=
  {| scenario_name :=
       "정상환급_" ++ user_name ++ "_" ++ str_of_int total_refund ++ "원";
     description :=
       user_name ++ "의 정상 환급 시나리오 (총 "
       ++ format_commas total_refund ++ "원)";
     user_info := {| name := user_name; phone := None; birthday := None |};
     taxpayer_info := TaxpayerInfo_default;
     biz_type := biz_type;
     refund_result :=
       {| total_refund := total_refund; 창중감_환급액 := 창중감;
          고용증대_환급액 := 고용증대; 사회보험료_환급액 := 사회보험료 |};
     cert_request_config := ActionConfig_default;
     cert_response_config := ActionConfig_default;
     check_config := ActionConfig_default;
     load_config := ActionConfig_default;
     progress_config := ProgressConfig_default D |}.

(** [BizType(biz_type_str)] is not inside a [try]: its ValueError leaves
    the handler. *)
Definition handle_scenario_build_normal (D : ModelDefaults)
  (arguments : build_normal_arguments) : result json :=
  let user_name := or_default (bn_user_name arguments) "테스트사용자" in
  let total_refund := or_default (bn_total_refund arguments) 0%Z in
  let biz_type_str := or_default (bn_biz_type arguments) "individual_biz" in
  let 창중감 := or_default (bn_창중감_환급액 arguments) 0%Z in
  let 고용증대 := or_default (bn_고용증대_환급액 arguments) 0%Z in
  let 사회보험료 := or_default (bn_사회보험료_환급액 arguments) 0%Z in
  match BizType_of_value biz_type_str with
  | None => Raise ("'" ++ biz_type_str ++ "' is not a valid BizType")
  | Some biz_type =>
      Ok (to_dict (build_normal_scenario D user_name total_refund biz_type
                     창중감 고용증대 사회보험료))
  end.

(** *** handle_scenario_unassign *)

(** As [store_call], for [table.delete_item(Key)]. *)
Inductive delete_call : Type :=
| ReplyNow : json -> delete_call
| DeleteItem : json -> (result unit -> json) -> delete_call.

Definition run_delete (delete_item : json -> result unit) (c : delete_call)
  : json :=
  match c with
  | ReplyNow r => r
  | DeleteItem key k => k (delete_item key)
  end.

Definition unassign_reply (user_ern : string) (outcome : result unit) : json :=
  match outcome with
  | Ok _ =>
      JObj [ ("success", JBool true);
             ("user_ern", JStr user_ern);
             ("message",
               JStr (user_ern ++ "의 시나리오 할당이 해제되었습니다.")) ]
  | Raise e =>
      JObj [ ("success", JBool false);
             ("error", JStr ("DynamoDB 삭제 실패: " ++ e));
             ("user_ern", JStr user_ern) ]
  end.

Definition handle_scenario_unassign (user_ern : option string) : delete_call :=
  let user_ern := or_default user_ern "" in
  if negb (str_truthy user_ern)
  then ReplyNow (JObj [ ("error", JStr "user_ern is required") ])
  else DeleteItem (JObj [ ("user_ern", JStr user_ern) ])
                  (unassign_reply user_ern).

(** *** handle_error_types_list and read_resource *)

(** The body of the loop over [ErrorType]; the tool and the resource
    have the same one. *)
Definition error_type_entry (error_type : ErrorType) : json :=
  let default_action := default_stage_for error_type in
  JObj [ ("type", JStr (ErrorType_value error_type));
         ("message",
           JStr (match table_get error_type ERROR_MESSAGES with
                 | Some m => m
                 | None => ""
                 end));
         ("default_action", JStr (ActionType_value default_action)) ].

Definition handle_error_types_list : json :=
  JObj [ ("error_types", JList (map error_type_entry ErrorType_members)) ].

(** The summary the resource builds: [refund_result] is read first, the
    other keys inside the mapping literal. *)
Definition resource_summary (template_id : string) (template_data : json)
  : result json :=
  let* refund_result := obj_get "refund_result" (JObj []) template_data in
  let* description := obj_get "description" (JStr "") template_data in
  let* total_refund := obj_get "total_refund" (JInt 0) refund_result in
  let* biz_type := obj_get "biz_type" (JStr "unknown") template_data in
  Ok (JObj [ ("template_id", JStr template_id);
             ("description", description);
             ("total_refund", total_refund);
             ("biz_type", biz_type) ]).

Fixpoint resource_summaries (templates : dict json) : result (list json) :=
  match templates with
  | [] => Ok []
  | (template_id, template_data) :: rest =>
      let* entry := resource_summary template_id template_data in
      let* others := resource_summaries rest in
      Ok (entry :: others)
  end.

(** The [uri] argument of [read_resource].  The annotation says [str], and
    a direct call passes one; the handler registered with
    [@server.read_resource()] is called with the request's [AnyUrl]
    object.  Either way the value carries its text, [str(uri)]. *)
Inductive uri_value : Type :=
| UriStr : string -> uri_value
| UriAnyUrl : string -> uri_value.

(** [str(uri)], as the f-string of the ValueError formats it. *)
Definition uri_text (uri : uri_value) : string :=
  match uri with UriStr text | UriAnyUrl text => text end.

(** [uri == literal] for a [str] literal: string equality for a [str]; an
    [AnyUrl] is not a [str] and compares unequal to every [str]. *)
Definition uri_eq (uri : uri_value) (literal : string) : bool :=
  match uri with
  | UriStr text => String.eqb text literal
  | UriAnyUrl _ => false
  end.

(** [templates] is the mapping [load_templates()] returns; a URI that
    equals neither literal raises ValueError. *)
Definition read_resource (templates : dict json) (uri : uri_value)
  : result json :=
  if uri_eq uri "scenario://templates" then
    let* entries := resource_summaries templates in
    Ok (JObj [ ("templates", JList entries) ])
  else if uri_eq uri "scenario://error-types" then
    Ok (JObj [ ("error_types", JList (map error_type_entry ErrorType_members)) ])
  else Raise ("Unknown resource URI: " ++ uri_text uri).


(** *** get_mock_itr_loader_path and load_templates *)

(** [d[key] = value]: the entry of an existing key is replaced where it
    stands, a new key goes to the end. *)
Fixpoint dict_set {V : Type} (key : string) (value : V) (d : dict V)
  : dict V :=
  match d with
  | [] => [(key, value)]
  | (k, v) :: rest =>
      if String.eqb k key then (k, value) :: rest
      else (k, v) :: dict_set key value rest
  end.

Section Loader.

(** [pathlib.Path] values, [Path(s)] and the [/] operator. *)
Variable Path : Type.
Variable path_of_string : string -> Path.
Variable path_join : Path -> string -> Path.

(** What the two functions see of the process and the file system: the
    value of the environment variable ([""] when unset), the directory
    four levels above the module file, which paths exist, and, for a
    directory, the stems of the files [glob("TPL_*.json")] yields, in
    the order it yields them, each with the outcome of opening the file
    and [json.load]. *)
Record world : Type := mk_world {
  environ_MOCK_ITR_LOADER_PATH : string;
  current_dir : Path;
  path_exists : Path -> bool;
  glob_templates : Path -> list (string * result json)
}.

(** The two module-level globals. *)
Record globals : Type := mk_globals {
  TEMPLATES : dict json;
  MOCK_ITR_LOADER_PATH : option Path
}.

Definition get_mock_itr_loader_path (w : world) (g : globals)
  : result Path * globals :=
  match MOCK_ITR_LOADER_PATH g with
  | Some p => (Ok p, g)
  | None =>
      let path := environ_MOCK_ITR_LOADER_PATH w in
      if negb (str_truthy path) then
        let possible_path := path_join (current_dir w) "mock-itrLoader" in
        if path_exists w possible_path then
          (Ok possible_path,
           {| TEMPLATES := TEMPLATES g;
              MOCK_ITR_LOADER_PATH := Some possible_path |})
        else
          (Raise ("MOCK_ITR_LOADER_PATH environment variable not set. "
                  ++ "Please set it to the mock-itrLoader project path."),
           g)
      else
        (Ok (path_of_string path),
         {| TEMPLATES := TEMPLATES g;
            MOCK_ITR_LOADER_PATH := Some (path_of_string path) |})
  end.

(** The [for] loop over the files: each loaded file is stored at once;
    the first file that cannot be read ends the loop by its exception. *)
Fixpoint load_files (files : list (string * result json))
  (templates : dict json) : dict json :=
  match files with
  | [] => templates
  | (template_id, Ok template) :: rest =>
      load_files rest (dict_set template_id template templates)
  | (_, Raise _) :: _ => templates
  end.

(** The returned mapping and the globals after the call; every
    exception is caught and logged. *)
Definition load_templates (w : world) (g : globals)
  : dict json * globals :=
  match TEMPLATES g with
  | _ :: _ => (TEMPLATES g, g)
  | [] =>
      match get_mock_itr_loader_path w g with
      | (Raise _, g') => (TEMPLATES g', g')
      | (Ok mock_path, g') =>
          let templates_dir :=
            path_join (path_join mock_path "mock_lambda") "templates" in
          if negb (path_exists w templates_dir) then (TEMPLATES g', g')
          else
            let loaded :=
              load_files (glob_templates w templates_dir) (TEMPLATES g') in
            (loaded,
             {| TEMPLATES := loaded;
                MOCK_ITR_LOADER_PATH := MOCK_ITR_LOADER_PATH g' |})
      end
  end.

End Loader.

Arguments environ_MOCK_ITR_LOADER_PATH {Path} _.
Arguments current_dir {Path} _.
Arguments path_exists {Path} _ _.
Arguments glob_templates {Path} _ _.
Arguments TEMPLATES {Path} _.
Arguments MOCK_ITR_LOADER_PATH {Path} _.
Arguments mk_world {Path} _ _ _ _.
Arguments mk_globals {Path} _ _.
Arguments get_mock_itr_loader_path {Path} _ _ _ _.
Arguments load_templates {Path} _ _ _ _.



(* ===================================================================== *)
(** ** Properties of the Python helpers *)
(* ===================================================================== *)

Lemma starts_with_app (n rest : string) : starts_with n (n ++ rest) = true.
Proof.
  induction n as [|c n IH]; simpl.
  - reflexivity.
  - rewrite Ascii.eqb_refl. exact IH.
Qed.

Lemma starts_with_split (n h : string) :
  starts_with n h = true -> exists rest, h = (n ++ rest)%string.
Proof.
  revert h. induction n as [|c n IH]; intros h H.
  - exists h. reflexivity.
  - destruct h as [|b h]; simpl in H; [discriminate|].
    apply andb_true_iff in H. destruct H as [Hc Hn].
    apply Ascii.eqb_eq in Hc. subst b.
    destruct (IH _ Hn) as [rest ->]. exists rest. reflexivity.
Qed.

(** [needle in hay] holds exactly when [hay] splits around [needle]. *)
Lemma str_contains_spec (n h : string) :
  str_contains n h = true <-> exists a b, h = (a ++ n ++ b)%string.
Proof.
  split.
  - induction h as [|c h IH]; simpl; intro H.
    + rewrite orb_false_r in H. apply starts_with_split in H.
      destruct H as [rest ->]. exists EmptyString, rest. reflexivity.
    + apply orb_true_iff in H. destruct H as [H|H].
      * apply starts_with_split in H. destruct H as [rest ->].
        exists EmptyString, rest. reflexivity.
      * destruct (IH H) as (a & b & ->). exists (String c a), b. reflexivity.
  - intros (a & b & ->). induction a as [|c a IH].
    + simpl append. destruct (n ++ b)%string eqn:E.
      * simpl. rewrite orb_false_r. rewrite <- E. apply starts_with_app.
      * simpl. apply orb_true_iff. left. rewrite <- E. apply starts_with_app.
    + simpl. rewrite IH. apply orb_true_r.
Qed.

Lemma append_empty_r (s : string) : (s ++ "")%string = s.
Proof. induction s as [|c s IH]; simpl; [reflexivity | rewrite IH; reflexivity]. Qed.

(** [len] counts code points, not bytes. *)
Example py_len_hangul :
  py_len "테스트사용자" = 6%nat /\ String.length "테스트사용자" = 18%nat.
Proof. split; reflexivity. Qed.

Example str_contains_examples :
  str_contains "ERR" "TPL_ERR_B" = true
  /\ str_contains "ERR" "TPL_CORP_C" = false
  /\ str_contains "CORP" "TPL_CORP_C" = true.
Proof. repeat split. Qed.

(* ===================================================================== *)
(** ** The error catalog *)
(* ===================================================================== *)

(** Looking a member up by its own value finds that member. *)
Lemma ErrorType_of_value_value (k : ErrorType) :
  ErrorType_of_value (ErrorType_value k) = Some k.
Proof. destruct k; vm_compute; reflexivity. Qed.

(** A string is accepted by [ErrorType(...)] only if it is the value of a
    member. *)
Lemma ErrorType_of_value_Some (s : string) (k : ErrorType) :
  ErrorType_of_value s = Some k -> ErrorType_value k = s.
Proof.
  unfold ErrorType_of_value. intro H. apply find_some in H.
  destruct H as [_ H]. apply String.eqb_eq in H. exact H.
Qed.

Lemma ErrorType_of_value_None (s : string) :
  ~ In s (map ErrorType_value ErrorType_members) ->
  ErrorType_of_value s = None.
Proof.
  intro Hn. destruct (ErrorType_of_value s) as [k|] eqn:E; [|reflexivity].
  exfalso. apply Hn. apply ErrorType_of_value_Some in E. subst s.
  apply in_map. destruct k; simpl; tauto.
Qed.

(** Both module-level tables have an entry for every member. *)
Lemma ERROR_MESSAGES_complete (k : ErrorType) :
  exists m, table_get k ERROR_MESSAGES = Some m /\ m <> "".
Proof. destruct k; eexists; (split; [reflexivity | discriminate]). Qed.

Lemma ERROR_DEFAULT_ACTION_complete (k : ErrorType) :
  exists a, table_get k ERROR_DEFAULT_ACTION = Some a
            /\ (a = LOAD \/ a = CERT_RESPONSE \/ a = CHECK).
Proof. destruct k; eexists; (split; [reflexivity | tauto]). Qed.

(* ===================================================================== *)
(** ** Serialization round trip *)
(* ===================================================================== *)

Lemma UserInfo_round_trip (u : UserInfo) :
  UserInfo_from_dict (UserInfo_to_dict u) = Ok u.
Proof. destruct u as [n [p|] [b|]]; reflexivity. Qed.

Lemma TaxpayerInfo_round_trip (t : TaxpayerInfo) :
  TaxpayerInfo_from_dict (TaxpayerInfo_to_dict t) = Ok t.
Proof. destruct t as [[t|]]; reflexivity. Qed.

Lemma RefundResult_round_trip (r : RefundResult) :
  RefundResult_from_dict (RefundResult_to_dict r) = Ok r.
Proof. destruct r; reflexivity. Qed.

Lemma ActionConfig_round_trip (a : ActionConfig) :
  ActionConfig_from_dict (ActionConfig_to_dict a) = Ok a.
Proof. destruct a as [s [t|] [m|]]; reflexivity. Qed.

Lemma ProgressStep_round_trip (p : ProgressStep) :
  ProgressStep_from_dict (ProgressStep_to_dict p) = Ok p.
Proof. destruct p; reflexivity. Qed.

Lemma steps_round_trip (l : list ProgressStep) :
  traverse ProgressStep_from_dict (map ProgressStep_to_dict l) = Ok l.
Proof.
  induction l as [|p l IH].
  - reflexivity.
  - cbn [map traverse]. rewrite ProgressStep_round_trip, IH. reflexivity.
Qed.

Lemma ProgressConfig_round_trip (D : ModelDefaults) (p : ProgressConfig) :
  ProgressConfig_from_dict D (ProgressConfig_to_dict p) = Ok p.
Proof.
  destruct p as [e q l].
  unfold ProgressConfig_from_dict, ProgressConfig_to_dict, field, as_steps.
  cbn -[traverse ProgressStep_to_dict]. rewrite steps_round_trip.
  reflexivity.
Qed.

Lemma BizType_round_trip (b : BizType) :
  as_biz_type (JStr (BizType_value b)) = Ok b.
Proof. destruct b; reflexivity. Qed.

Lemma from_dict_to_dict (D : ModelDefaults) (s : ScenarioConfig) :
  from_dict D (to_dict s) = Ok s.
Proof.
  destruct s.
  unfold from_dict, to_dict, field.
  cbn -[UserInfo_from_dict UserInfo_to_dict TaxpayerInfo_from_dict
        TaxpayerInfo_to_dict RefundResult_from_dict RefundResult_to_dict
        ActionConfig_from_dict ActionConfig_to_dict ProgressConfig_from_dict
        ProgressConfig_to_dict as_biz_type BizType_value].
  rewrite UserInfo_round_trip. cbn [bind].
  rewrite TaxpayerInfo_round_trip. cbn [bind].
  rewrite BizType_round_trip. cbn [bind].
  rewrite RefundResult_round_trip. cbn [bind].
  rewrite !ActionConfig_round_trip. cbn [bind].
  rewrite ProgressConfig_round_trip. reflexivity.
Qed.

(** Two scenarios with the same representation are the same scenario. *)
Lemma to_dict_injective (s1 s2 : ScenarioConfig) :
  to_dict s1 = to_dict s2 -> s1 = s2.
Proof.
  intro H.
  pose (D := {| default_scenario_name := ""; default_description := "";
                default_queue_name := "" |}).
  assert (E : from_dict D (to_dict s1) = from_dict D (to_dict s2))
    by (rewrite H; reflexivity).
  rewrite !from_dict_to_dict in E. congruence.
Qed.

(** Default fill: the empty mapping deserializes to the scenario of all
    defaults. *)
Example from_dict_empty (D : ModelDefaults) :
  from_dict D (JObj []) = Ok (ScenarioConfig_default D).
Proof. reflexivity. Qed.

(** A value of the wrong type is a parse failure. *)
Example from_dict_bad_biz_type (D : ModelDefaults) :
  from_dict D (JObj [ ("biz_type", JStr "partnership") ])
  = Raise "biz_type is not one of the allowed values".
Proof. reflexivity. Qed.

(** C1. Round trip: deserializing the representation of a scenario gives
    back that scenario, equal in every field; this holds for every
    scenario of the model, whatever the undocumented string defaults. *)
Theorem round_trip (D : ModelDefaults) (s : ScenarioConfig) :
  from_dict D (to_dict s) = Ok s.
Proof. apply from_dict_to_dict. Qed.

(* ===================================================================== *)
(** ** The error builder *)
(* ===================================================================== *)

Lemma build_error_known (D : ModelDefaults) (user_name : option string)
  (k : ErrorType) (error_msg action : option string) :
  handle_scenario_build_error D
    {| be_user_name := user_name;
       be_error_type := Some (ErrorType_value k);
       be_error_msg := error_msg;
       be_action := action |}
  = to_dict (build_error_scenario D (or_default user_name "테스트사용자") k
               (or_default error_msg "") (or_default action "")).
Proof.
  unfold handle_scenario_build_error. cbn [be_user_name be_error_type
    be_error_msg be_action or_default].
  rewrite ErrorType_of_value_value. reflexivity.
Qed.

(** C2. Called with a catalog error type and neither message nor action,
    the error builder returns the representation of a scenario in which
    the slot named by the default action of that type holds
    success=false, the type's value and the catalog message, and each of
    the other three slots holds the success=true default. *)
Theorem build_error_default_wiring (D : ModelDefaults)
  (user_name : option string) (k : ErrorType) :
  exists s : ScenarioConfig,
    handle_scenario_build_error D
      {| be_user_name := user_name;
         be_error_type := Some (ErrorType_value k);
         be_error_msg := None;
         be_action := None |} = to_dict s
    /\ table_get k ERROR_MESSAGES = Some (message_for k)
    /\ table_get k ERROR_DEFAULT_ACTION = Some (default_stage_for k)
    /\ In (ActionType_value (default_stage_for k)) slot_names
    /\ Forall
         (fun stage =>
            slot stage s =
            Some (if String.eqb stage (ActionType_value (default_stage_for k))
                  then {| success := false;
                          error_type := Some (ErrorType_value k);
                          error_msg := Some (message_for k) |}
                  else ActionConfig_default))
         slot_names.
Proof.
  eexists. split; [apply build_error_known|].
  destruct k; cbn; repeat split; try tauto;
    repeat constructor.
Qed.

(** C3. For an [error_type] string that is the value of no catalog
    member, the error builder replies with the unknown-type error, which
    carries the values of all members in catalog order, and the reply is
    the representation of no scenario. *)
Theorem build_error_unknown_kind (D : ModelDefaults)
  (user_name error_msg action : option string) (error_type_str : string) :
  ~ In error_type_str (map ErrorType_value ErrorType_members) ->
  let reply :=
    handle_scenario_build_error D
      {| be_user_name := user_name;
         be_error_type := Some error_type_str;
         be_error_msg := error_msg;
         be_action := action |} in
  reply =
    JObj [ ("error", JStr ("Unknown error type: " ++ error_type_str));
           ("available_types",
             JList (map JStr (map ErrorType_value ErrorType_members))) ]
  /\ (forall s : ScenarioConfig, reply <> to_dict s).
Proof.
  intros Hn reply. subst reply. unfold handle_scenario_build_error.
  cbn [be_user_name be_error_type be_error_msg be_action or_default].
  rewrite (ErrorType_of_value_None _ Hn).
  split; [reflexivity|]. intros s H. discriminate H.
Qed.

Lemma build_error_unknown_kind_witness :
  let reply :=
    handle_scenario_build_error
      {| default_scenario_name := ""; default_description := "";
         default_queue_name := "" |}
      {| be_user_name := Some "kim";
         be_error_type := Some "not-a-real-kind";
         be_error_msg := None;
         be_action := None |} in
  json_get "error" reply = Some (JStr "Unknown error type: not-a-real-kind")
  /\ (forall s : ScenarioConfig, reply <> to_dict s).
Proof.
  intro reply.
  assert (Hn : ~ In "not-a-real-kind" (map ErrorType_value ErrorType_members)).
  { cbn. intros H.
    repeat (destruct H as [H|H]; [discriminate H|]). exact H. }
  destruct (build_error_unknown_kind
              {| default_scenario_name := ""; default_description := "";
                 default_queue_name := "" |}
              (Some "kim") None None "not-a-real-kind" Hn) as [E Hs].
  split; [|exact Hs]. subst reply. rewrite E. reflexivity.
Defined.

(** C10. Whenever the resolved stage (the given action, or the default
    action of the error type when none is given) is none of
    "cert_request", "cert_response" and "check", the error builder still
    returns a scenario, and the failing ActionConfig sits in its load
    slot while the other three slots keep their default. *)
Theorem build_error_load_catch_all (D : ModelDefaults)
  (user_name error_msg action : option string) (k : ErrorType) :
  let stage := resolved_action k (or_default action "") in
  stage <> "cert_request" -> stage <> "cert_response" -> stage <> "check" ->
  exists s : ScenarioConfig,
    handle_scenario_build_error D
      {| be_user_name := user_name;
         be_error_type := Some (ErrorType_value k);
         be_error_msg := error_msg;
         be_action := action |} = to_dict s
    /\ load_config s =
         {| success := false;
            error_type := Some (ErrorType_value k);
            error_msg := Some (resolved_message k (or_default error_msg "")) |}
    /\ cert_request_config s = ActionConfig_default
    /\ cert_response_config s = ActionConfig_default
    /\ check_config s = ActionConfig_default.
Proof.
  intros stage H1 H2 H3. eexists. split; [apply build_error_known|].
  unfold build_error_scenario. fold stage.
  apply String.eqb_neq in H1, H2, H3. rewrite H1, H2, H3.
  cbn. repeat split.
Qed.

Lemma build_error_load_catch_all_witness :
  exists s : ScenarioConfig,
    handle_scenario_build_error
      {| default_scenario_name := ""; default_description := "";
         default_queue_name := "" |}
      {| be_user_name := None;
         be_error_type := Some (ErrorType_value CALC_ERROR);
         be_error_msg := None;
         be_action := Some "calc" |} = to_dict s
    /\ load_config s =
         {| success := false;
            error_type := Some "계산오류";
            error_msg := Some "환급액 계산 중 오류가 발생했습니다." |}
    /\ cert_request_config s = ActionConfig_default
    /\ cert_response_config s = ActionConfig_default
    /\ check_config s = ActionConfig_default.
Proof.
  apply (build_error_load_catch_all
           {| default_scenario_name := ""; default_description := "";
              default_queue_name := "" |}
           None None (Some "calc") CALC_ERROR); cbn; discriminate.
Defined.

(* ===================================================================== *)
(** ** The progress builder *)
(* ===================================================================== *)

Lemma nth_error_make_step (l : list step_argument) (i : nat)
  (sa : step_argument) :
  nth_error l i = Some sa ->
  nth_error (map make_step l) i = Some (make_step sa).
Proof. intro H. apply map_nth_error. exact H. Qed.

(** C7. The progress builder returns the representation of a scenario
    whose progress_config is enabled; when [steps] is omitted or empty its
    steps are the four fixed ones, in order, with delays 0.5, 1.0, 1.5 and
    0.5; when a non-empty [steps] is supplied there is one step per
    supplied item, in the same order, carrying the item's name, progress
    and delay, the delay being 0.5 where the item gives none. *)
Theorem build_progress_steps (user_name : option string)
  (total_refund : option Z) (queue_name : option string)
  (supplied : option (list step_argument)) :
  exists s : ScenarioConfig,
    handle_scenario_build_progress
      {| bp_user_name := user_name; bp_total_refund := total_refund;
         bp_queue_name := queue_name; bp_steps := supplied |} = to_dict s
    /\ enabled (progress_config s) = true
    /\ (supplied = None \/ supplied = Some [] ->
        steps (progress_config s) =
          [ {| step_name := "홈택스 로그인"; progress := "10%";
               delay_seconds := 0.5 |};
            {| step_name := "신고내역 조회"; progress := "30%";
               delay_seconds := 1.0 |};
            {| step_name := "환급액 계산"; progress := "60%";
               delay_seconds := 1.5 |};
            {| step_name := "결과 생성"; progress := "90%";
               delay_seconds := 0.5 |} ])
    /\ (forall l, supplied = Some l -> l <> [] ->
        length (steps (progress_config s)) = length l
        /\ forall i sa, nth_error l i = Some sa ->
           exists st, nth_error (steps (progress_config s)) i = Some st
             /\ step_name st = or_default (sa_step_name sa) ""
             /\ progress st = or_default (sa_progress sa) "0%"
             /\ delay_seconds st =
                  match sa_delay_seconds sa with
                  | Some d => d
                  | None => 0.5
                  end).
Proof.
  eexists. split; [reflexivity|]. split; [reflexivity|]. split.
  - intros [-> | ->]; reflexivity.
  - intros l -> Hl. destruct l as [|a l]; [congruence|].
    cbn [build_progress_scenario progress_config steps bp_steps or_default].
    split.
    + apply length_map.
    + intros i sa Hi. exists (make_step sa). split.
      * apply nth_error_make_step. exact Hi.
      * destruct sa as [n p [d|]]; repeat split.
Qed.

Lemma build_progress_steps_witness :
  exists s : ScenarioConfig,
    handle_scenario_build_progress
      {| bp_user_name := Some "kim"; bp_total_refund := Some 100000%Z;
         bp_queue_name := Some "q"; bp_steps := Some [] |} = to_dict s
    /\ map delay_seconds (steps (progress_config s)) = [0.5; 1.0; 1.5; 0.5]
    /\ map progress (steps (progress_config s)) = ["10%"; "30%"; "60%"; "90%"].
Proof.
  destruct (build_progress_steps (Some "kim") (Some 100000%Z) (Some "q")
              (Some [])) as (s & E & _ & Hd & _).
  exists s. split; [exact E|].
  rewrite (Hd (or_intror eq_refl)). split; reflexivity.
Defined.

(* ===================================================================== *)
(** ** The validator *)
(* ===================================================================== *)

(** C4. When the input cannot be deserialized, the validator reports
    exactly one error, the parse failure, and no warning; and for every
    input the [valid] flag of the reply is true exactly when its [errors]
    list is empty, whatever the [warnings] list holds. *)
Theorem validate_parse_failure_and_validity (D : ModelDefaults)
  (scenario : option json) :
  (forall e, from_dict D (or_default scenario (JObj [])) = Raise e ->
     handle_scenario_validate D scenario =
       JObj [ ("valid", JBool false);
              ("errors", JList [JStr ("시나리오 파싱 오류: " ++ e)]);
              ("warnings", JList []) ])
  /\ exists (valid : bool) (errors warnings : list string),
       handle_scenario_validate D scenario =
         JObj [ ("valid", JBool valid);
                ("errors", JList (map JStr errors));
                ("warnings", JList (map JStr warnings)) ]
       /\ (valid = true <-> errors = []).
Proof.
  unfold handle_scenario_validate. split.
  - intros e He. unfold validation_lists. rewrite He. reflexivity.
  - destruct (validation_lists D (or_default scenario (JObj [])))
      as [errors warnings].
    exists (Nat.eqb (length errors) 0), errors, warnings.
    split; [reflexivity|].
    destruct errors; simpl; split; congruence.
Qed.

Lemma validate_parse_failure_and_validity_witness :
  exists e,
    handle_scenario_validate
      {| default_scenario_name := ""; default_description := "";
         default_queue_name := "" |}
      (Some (JObj [ ("biz_type", JStr "partnership") ])) =
    JObj [ ("valid", JBool false);
           ("errors", JList [JStr ("시나리오 파싱 오류: " ++ e)]);
           ("warnings", JList []) ].
Proof.
  exists "biz_type is not one of the allowed values".
  apply (validate_parse_failure_and_validity
           {| default_scenario_name := ""; default_description := "";
              default_queue_name := "" |}
           (Some (JObj [ ("biz_type", JStr "partnership") ]))).
  reflexivity.
Defined.

(** Two warnings and no error: the reply is valid. *)
Example validate_warnings_only (D : ModelDefaults) :
  handle_scenario_validate D
    (Some (JObj [ ("user_info", JObj [ ("phone", JStr "0101234") ]) ]))
  = JObj [ ("valid", JBool true);
           ("errors", JList []);
           ("warnings",
             JList [ JStr "개인사업자 시나리오인데 환급액이 0원입니다.";
                     JStr "전화번호가 11자리가 아닙니다." ]) ].
Proof. reflexivity. Qed.

(** C8. For the scenario whose user_info has birthday "2024" and whose
    other fields are left at their defaults, given either by the one key
    alone or by the full representation of that scenario, the validator
    reports exactly one error, the birthday format error; the reply is
    not valid, and the only other entry is the zero-refund warning. *)
Theorem validate_birthday_2024 (D : ModelDefaults) :
  let expected :=
    JObj [ ("valid", JBool false);
           ("errors", JList [JStr "생년월일은 YYYYMMDD 형식이어야 합니다."]);
           ("warnings",
             JList [JStr "개인사업자 시나리오인데 환급액이 0원입니다."]) ] in
  handle_scenario_validate D
    (Some (JObj [ ("user_info", JObj [ ("birthday", JStr "2024") ]) ]))
  = expected
  /\ handle_scenario_validate D
       (Some (to_dict
          {| scenario_name := default_scenario_name D;
             description := default_description D;
             user_info :=
               {| name := "테스트사용자"; phone := None;
                  birthday := Some "2024" |};
             taxpayer_info := TaxpayerInfo_default;
             biz_type := INDIVIDUAL_BIZ;
             refund_result := RefundResult_default;
             cert_request_config := ActionConfig_default;
             cert_response_config := ActionConfig_default;
             check_config := ActionConfig_default;
             load_config := ActionConfig_default;
             progress_config := ProgressConfig_default D |}))
     = expected.
Proof.
  intro expected. split.
  - reflexivity.
  - unfold handle_scenario_validate, validation_lists.
    cbn [or_default]. rewrite from_dict_to_dict. reflexivity.
Qed.

(* ===================================================================== *)
(** ** The template catalog *)
(* ===================================================================== *)

Lemma template_summary_ok (template_id : string) (template_data : json) :
  summarizable template_data = true ->
  exists entry, template_summary template_id template_data = Ok entry
                /\ summary_id entry = Some template_id.
Proof.
  intro H. destruct template_data as [| | | | | |d]; try discriminate H.
  unfold summarizable in H. unfold template_summary, obj_get, get_or.
  destruct (dict_get "refund_result" d) as [[| | | | | |r]|];
    try discriminate H; cbn [bind]; eexists; split; reflexivity.
Qed.

Lemma template_summaries_ids (category : string) (templates : dict json) :
  catalog_of_representations templates ->
  exists entries,
    template_summaries category templates = Ok entries
    /\ summary_ids entries =
         Some (filter (fun id => negb (skipped category id))
                      (dict_keys templates)).
Proof.
  intro H. induction H as [|[id data] rest Hd _ IH].
  - exists []. split; reflexivity.
  - destruct IH as (entries & E & Hids). cbn [snd] in Hd.
    cbn [template_summaries dict_keys map fst filter].
    destruct (skipped category id); cbn [negb].
    + exists entries. split; assumption.
    + destruct (template_summary_ok id data Hd) as (entry & Es & Hid).
      exists (entry :: entries). rewrite Es, E. cbn [bind]. split.
      * reflexivity.
      * cbn [summary_ids]. rewrite Hid. fold (dict_keys rest) in Hids.
        rewrite Hids. reflexivity.
Qed.

Lemma summary_ids_length (entries : list json) (ids : list string) :
  summary_ids entries = Some ids -> length entries = length ids.
Proof.
  revert ids. induction entries as [|e entries IH]; intros ids H.
  - injection H as <-. reflexivity.
  - cbn [summary_ids] in H. destruct (summary_id e); [|discriminate H].
    destruct (summary_ids entries) as [ids'|]; [|discriminate H].
    injection H as <-. cbn [length]. f_equal. apply IH. reflexivity.
Qed.

(** The reply lists the templates the category keeps, in catalog order,
    and counts them. *)
Lemma template_list_kept (templates : dict json) (category : option string) :
  catalog_of_representations templates ->
  let kept :=
    filter (fun id => negb (skipped (or_default category "all") id))
           (dict_keys templates) in
  listed_ids (handle_template_list templates category) = Some kept
  /\ listed_count (handle_template_list templates category)
     = Some (JInt (Z.of_nat (length kept))).
Proof.
  intros H kept. unfold handle_template_list.
  destruct (template_summaries_ids (or_default category "all") templates H)
    as (entries & E & Hids).
  rewrite E. cbn [bind listed_ids listed_count json_get dict_get].
  cbn. split; [exact Hids|].
  rewrite (summary_ids_length _ _ Hids). reflexivity.
Qed.

Lemma filter_all {A : Type} (l : list A) : filter (fun _ => true) l = l.
Proof.
  induction l as [|x l IH]; [reflexivity|]. cbn [filter]. f_equal. exact IH.
Qed.

(** C6. For every catalog of scenario representations, the template
    listing for category "error" lists exactly the ids that contain "ERR",
    for "normal" exactly those that do not, for "corp" exactly those that
    contain "CORP", and for "all" (also when the category is omitted)
    every id; each time in the iteration order of the catalog.  An id
    contains a word exactly when it splits around it. *)
Theorem template_list_filter (templates : dict json) :
  catalog_of_representations templates ->
  listed_ids (handle_template_list templates (Some "error"))
    = Some (filter (str_contains "ERR") (dict_keys templates))
  /\ listed_ids (handle_template_list templates (Some "normal"))
     = Some (filter (fun id => negb (str_contains "ERR" id))
                    (dict_keys templates))
  /\ listed_ids (handle_template_list templates (Some "corp"))
     = Some (filter (str_contains "CORP") (dict_keys templates))
  /\ listed_ids (handle_template_list templates (Some "all"))
     = Some (dict_keys templates)
  /\ listed_ids (handle_template_list templates None)
     = Some (dict_keys templates)
  /\ (forall word id,
        str_contains word id = true <->
        exists a b, id = (a ++ word ++ b)%string).
Proof.
  intro H.
  repeat split;
    try (rewrite (proj1 (template_list_kept templates _ H)); f_equal;
         first [ apply filter_all
               | apply filter_ext; intro id; unfold skipped; cbn;
                 destruct (str_contains "ERR" id),
                          (str_contains "CORP" id); reflexivity ]);
    apply str_contains_spec.
Qed.

Lemma template_list_filter_witness :
  let templates :=
    [ ("TPL_NORMAL_A", JObj [ ("description", JStr "a") ]);
      ("TPL_ERR_B",
        JObj [ ("refund_result", JObj [ ("total_refund", JInt 0) ]) ]);
      ("TPL_CORP_C", JObj [ ("biz_type", JStr "corp") ]) ] in
  listed_ids (handle_template_list templates (Some "error"))
    = Some ["TPL_ERR_B"]
  /\ listed_ids (handle_template_list templates (Some "normal"))
     = Some ["TPL_NORMAL_A"; "TPL_CORP_C"]
  /\ listed_ids (handle_template_list templates (Some "corp"))
     = Some ["TPL_CORP_C"]
  /\ listed_ids (handle_template_list templates (Some "all"))
     = Some ["TPL_NORMAL_A"; "TPL_ERR_B"; "TPL_CORP_C"].
Proof.
  intro templates.
  assert (H : catalog_of_representations templates)
    by (repeat constructor).
  destruct (template_list_filter templates H) as (E1 & E2 & E3 & E4 & _).
  rewrite E1, E2, E3, E4. repeat split.
Defined.

(* ===================================================================== *)
(** ** Assignment *)
(* ===================================================================== *)

(** The handler reaches the store only with a non-empty [user_ern] and a
    chosen scenario, and then with exactly this item and continuation. *)
Lemma assign_reaches_store (templates : dict json)
  (arguments : assign_arguments) (item : json) (k : result unit -> json) :
  handle_scenario_assign templates arguments = PutItem item k ->
  exists user_ern scenario,
    user_ern = or_default (as_user_ern arguments) ""
    /\ user_ern <> ""
    /\ chosen_scenario templates (as_scenario arguments)
         (as_template_id arguments) = inr scenario
    /\ item = assign_item user_ern scenario
    /\ k = assign_reply user_ern scenario.
Proof.
  unfold handle_scenario_assign. intro H.
  destruct (or_default (as_user_ern arguments) "") as [|c u] eqn:Eu;
    cbn [str_truthy negb] in H; [discriminate H|].
  destruct (chosen_scenario templates (as_scenario arguments)
              (as_template_id arguments)) as [early|scenario];
    [discriminate H|].
  injection H as <- <-. exists (String c u), scenario.
  repeat split. discriminate.
Qed.

(** The scenario the handler goes on with is the caller's: the inline
    scenario when that is non-empty, and otherwise the catalog entry of
    the caller's template id. *)
Lemma chosen_scenario_is_callers (templates : dict json)
  (scenario_data : option json) (template_id : option string)
  (scenario : json) :
  chosen_scenario templates scenario_data template_id = inr scenario ->
  (forall s, scenario_data = Some s -> truthy s = true -> scenario = s)
  /\ (opt_truthy truthy scenario_data = false ->
      exists t, template_id = Some t /\ dict_get t templates = Some scenario).
Proof.
  intro H.
  assert (Ht : scenario_of_template templates template_id = inr scenario ->
               exists t, template_id = Some t
                         /\ dict_get t templates = Some scenario).
  { unfold scenario_of_template. destruct template_id as [t|];
      [|discriminate]. destruct (str_truthy t); [|discriminate].
    destruct (dict_get t templates) as [v|] eqn:E; [|discriminate].
    intro Hv. injection Hv as <-. exists t. split; [reflexivity | exact E]. }
  destruct scenario_data as [s0|]; cbn [chosen_scenario opt_truthy] in *.
  - destruct (truthy s0) eqn:E0.
    + injection H as <-. split.
      * intros s Hs _. injection Hs as <-. reflexivity.
      * discriminate.
    + split.
      * intros s Hs Hts. injection Hs as <-. congruence.
      * intros _. apply Ht. exact H.
  - split; [discriminate|]. intros _. apply Ht. exact H.
Qed.

(** C5. Whenever the handler calls the store and the call fails with some
    reason, the reply has success=false, an error text that ends with,
    and so contains, that reason, and under "scenario" the whole scenario
    representation it tried to store, which is the caller's: the inline
    scenario when that is non-empty, otherwise the catalog entry of the
    caller's template id.  In particular, for every non-empty external id
    and every non-empty inline scenario the store is called, and when it
    fails the reply returns that very scenario. *)
Theorem assign_store_failure (templates : dict json)
  (put_item : json -> result unit) :
  (forall (arguments : assign_arguments) (item : json)
          (k : result unit -> json) (reason : string),
     handle_scenario_assign templates arguments = PutItem item k ->
     put_item item = Raise reason ->
     exists user_ern scenario,
       user_ern = or_default (as_user_ern arguments) ""
       /\ (forall s, as_scenario arguments = Some s -> truthy s = true ->
             scenario = s)
       /\ (opt_truthy truthy (as_scenario arguments) = false ->
           exists t, as_template_id arguments = Some t
                     /\ dict_get t templates = Some scenario)
       /\ item = JObj [ ("user_ern", JStr user_ern);
                        ("scenario_config", scenario) ]
       /\ run_store put_item (handle_scenario_assign templates arguments) =
            JObj [ ("success", JBool false);
                   ("error", JStr ("DynamoDB 저장 실패: " ++ reason));
                   ("user_ern", JStr user_ern);
                   ("scenario", scenario);
                   ("note",
                     JStr "DynamoDB에 저장하지 못했습니다. 위 시나리오를 수동으로 저장해주세요.") ]
       /\ str_contains reason ("DynamoDB 저장 실패: " ++ reason) = true)
  /\ (forall (user_ern : string) (s : json) (template_id : option string)
             (reason : string),
        user_ern <> "" -> truthy s = true ->
        put_item (JObj [ ("user_ern", JStr user_ern);
                         ("scenario_config", s) ]) = Raise reason ->
        run_store put_item
          (handle_scenario_assign templates
             {| as_user_ern := Some user_ern; as_scenario := Some s;
                as_template_id := template_id |}) =
          JObj [ ("success", JBool false);
                 ("error", JStr ("DynamoDB 저장 실패: " ++ reason));
                 ("user_ern", JStr user_ern);
                 ("scenario", s);
                 ("note",
                   JStr "DynamoDB에 저장하지 못했습니다. 위 시나리오를 수동으로 저장해주세요.") ]).
Proof.
  split.
  - intros arguments item k reason H Hput.
    destruct (assign_reaches_store _ _ _ _ H)
      as (u & sc & Hu & _ & Hc & -> & ->).
    destruct (chosen_scenario_is_callers _ _ _ _ Hc) as [Hin Htpl].
    exists u, sc. split; [exact Hu|]. split; [exact Hin|].
    split; [exact Htpl|]. split; [reflexivity|].
    rewrite H. cbn [run_store]. rewrite Hput. split; [reflexivity|].
    apply str_contains_spec. exists "DynamoDB 저장 실패: ", "".
    rewrite append_empty_r. reflexivity.
  - intros user_ern s template_id reason Hu Hs Hput.
    unfold handle_scenario_assign.
    cbn [as_user_ern as_scenario as_template_id or_default chosen_scenario].
    destruct user_ern as [|c u]; [congruence|]. cbn [str_truthy negb].
    rewrite Hs. cbn [run_store]. unfold assign_item. rewrite Hput.
    reflexivity.
Qed.

Lemma assign_store_failure_witness :
  let scenario :=
    JObj [ ("scenario_name", JStr "recover-me");
           ("biz_type", JStr "corp");
           ("refund_result", JObj [ ("total_refund", JInt 777) ]) ] in
  let arguments :=
    {| as_user_ern := Some "X"; as_scenario := Some scenario;
       as_template_id := Some "TPL_A" |} in
  let templates := [ ("TPL_A", JObj [ ("biz_type", JStr "non_biz") ]) ] in
  let reply :=
    run_store (fun _ => Raise "unreachable")
      (handle_scenario_assign templates arguments) in
  reply =
    JObj [ ("success", JBool false);
           ("error", JStr "DynamoDB 저장 실패: unreachable");
           ("user_ern", JStr "X");
           ("scenario", scenario);
           ("note",
             JStr "DynamoDB에 저장하지 못했습니다. 위 시나리오를 수동으로 저장해주세요.") ]
  /\ exists user_ern stored,
       (forall s, as_scenario arguments = Some s -> truthy s = true ->
          stored = s)
       /\ json_get "scenario" reply = Some stored
       /\ json_get "user_ern" reply = Some (JStr user_ern).
Proof.
  intros scenario arguments templates reply. split.
  - apply (proj2 (assign_store_failure templates
                    (fun _ => Raise "unreachable"))
             "X" scenario (Some "TPL_A") "unreachable");
      [discriminate | reflexivity | reflexivity].
  - destruct (proj1 (assign_store_failure templates
                       (fun _ => Raise "unreachable"))
                arguments (assign_item "X" scenario)
                (assign_reply "X" scenario) "unreachable"
                eq_refl eq_refl)
      as (u & sc & _ & Hin & _ & _ & Hrun & _).
    exists u, sc. split; [exact Hin|].
    subst reply. rewrite Hrun. split; reflexivity.
Defined.

(** C9, as stated, fails in three ways.  With an empty external id and
    neither scenario nor template id, the reply is the missing-id error,
    not the missing-scenario one.  An empty inline scenario given together
    with a template id does not take precedence: the template is stored.
    An empty template id given alone is reported as a missing scenario,
    not as a template that was not found. *)
Lemma assign_resolution_counterexample :
  (handle_scenario_assign []
     {| as_user_ern := Some ""; as_scenario := None;
        as_template_id := None |}
   = Reply (JObj [ ("error", JStr "user_ern is required") ])
   /\ JObj [ ("error", JStr "user_ern is required") ]
      <> JObj [ ("error",
                  JStr "Either scenario or template_id is required") ])
  /\ (handle_scenario_assign [ ("TPL_A", JObj [ ("biz_type", JStr "corp") ]) ]
        {| as_user_ern := Some "X"; as_scenario := Some (JObj []);
           as_template_id := Some "TPL_A" |}
      = PutItem (JObj [ ("user_ern", JStr "X");
                        ("scenario_config",
                          JObj [ ("biz_type", JStr "corp") ]) ])
                (assign_reply "X" (JObj [ ("biz_type", JStr "corp") ]))
      /\ JObj [ ("biz_type", JStr "corp") ] <> JObj [])
  /\ (handle_scenario_assign []
        {| as_user_ern := Some "X"; as_scenario := None;
           as_template_id := Some "" |}
      = Reply (JObj [ ("error",
                        JStr "Either scenario or template_id is required") ])
      /\ dict_get "" (@nil (string * json)) = None
      /\ JObj [ ("error",
                  JStr "Either scenario or template_id is required") ]
         <> JObj [ ("error", JStr "Template not found: ");
                   ("available_templates", JList []) ]).
Proof.
  repeat split; try reflexivity; discriminate.
Qed.

(** C9, amended. For a call with a non-empty external id: a non-empty
    inline scenario is the one handed to the store, whatever template id
    comes with it; when neither a non-empty inline scenario nor a
    non-empty template id is given, the reply is the missing-scenario
    error; when no non-empty inline scenario is given and the non-empty
    template id is not a key of the catalog, the reply is the
    template-not-found error, which carries the catalog's ids in order.
    For a call with an empty or missing external id the reply is the
    missing-id error, whatever scenario and template id are given, and
    nothing is resolved and the store is not called. *)
Theorem assign_resolution (templates : dict json)
  (scenario_data : option json) (template_id : option string) :
  (forall user_ern : string,
     user_ern <> "" ->
     let call :=
       handle_scenario_assign templates
         {| as_user_ern := Some user_ern; as_scenario := scenario_data;
            as_template_id := template_id |} in
     (forall s, scenario_data = Some s -> truthy s = true ->
        call = PutItem (JObj [ ("user_ern", JStr user_ern);
                               ("scenario_config", s) ])
                       (assign_reply user_ern s))
     /\ (opt_truthy truthy scenario_data = false ->
         opt_truthy str_truthy template_id = false ->
         call = Reply (JObj [ ("error",
                                JStr
                                  "Either scenario or template_id is required")
                            ]))
     /\ (forall t, opt_truthy truthy scenario_data = false ->
         template_id = Some t -> t <> "" -> dict_get t templates = None ->
         call = Reply (JObj [ ("error", JStr ("Template not found: " ++ t));
                              ("available_templates",
                                JList (map JStr (dict_keys templates))) ])))
  /\ (forall user_ern : option string,
        user_ern = None \/ user_ern = Some "" ->
        handle_scenario_assign templates
          {| as_user_ern := user_ern; as_scenario := scenario_data;
             as_template_id := template_id |}
        = Reply (JObj [ ("error", JStr "user_ern is required") ])).
Proof.
  split.
  - intros user_ern Hu call. subst call. unfold handle_scenario_assign.
    cbn [as_user_ern as_scenario as_template_id or_default].
    destruct user_ern as [|c u]; [congruence|]. cbn [str_truthy negb].
    repeat split.
    + intros s -> Hs. cbn [chosen_scenario]. rewrite Hs. reflexivity.
    + intros Hs Ht.
      assert (E : chosen_scenario templates scenario_data template_id
                  = inl scenario_required).
      { assert (Et : scenario_of_template templates template_id
                     = inl scenario_required).
        { destruct template_id as [t|]; cbn in *; [rewrite Ht|]; reflexivity. }
        destruct scenario_data as [s|]; cbn in *; [rewrite Hs|]; exact Et. }
      rewrite E. reflexivity.
    + intros t Hs -> Ht Hnone.
      assert (E : chosen_scenario templates scenario_data (Some t)
                  = inl (template_not_found t templates)).
      { assert (Et : scenario_of_template templates (Some t)
                     = inl (template_not_found t templates)).
        { cbn. destruct t; [congruence|]. cbn. rewrite Hnone. reflexivity. }
        destruct scenario_data as [s|]; cbn in *; [rewrite Hs|]; exact Et. }
      rewrite E. reflexivity.
  - intros user_ern [-> | ->]; reflexivity.
Qed.

Lemma assign_resolution_witness :
  let templates := [ ("TPL_A", JObj [ ("biz_type", JStr "corp") ]) ] in
  handle_scenario_assign templates
    {| as_user_ern := Some "X";
       as_scenario := Some (JObj [ ("scenario_name", JStr "inline") ]);
       as_template_id := Some "TPL_A" |}
  = PutItem (JObj [ ("user_ern", JStr "X");
                    ("scenario_config",
                      JObj [ ("scenario_name", JStr "inline") ]) ])
            (assign_reply "X" (JObj [ ("scenario_name", JStr "inline") ]))
  /\ handle_scenario_assign templates
       {| as_user_ern := Some "X"; as_scenario := None;
          as_template_id := None |}
     = Reply (JObj [ ("error",
                       JStr "Either scenario or template_id is required") ])
  /\ handle_scenario_assign templates
       {| as_user_ern := Some "X"; as_scenario := None;
          as_template_id := Some "TPL_Z" |}
     = Reply (JObj [ ("error", JStr "Template not found: TPL_Z");
                     ("available_templates", JList [JStr "TPL_A"]) ])
  /\ handle_scenario_assign templates
       {| as_user_ern := None;
          as_scenario := Some (JObj [ ("scenario_name", JStr "inline") ]);
          as_template_id := Some "TPL_A" |}
     = Reply (JObj [ ("error", JStr "user_ern is required") ]).
Proof.
  intro templates.
  assert (Hx : "X" <> "") by discriminate.
  split; [|split; [|split]].
  - apply (proj1 (proj1 (assign_resolution templates
                           (Some (JObj [ ("scenario_name", JStr "inline") ]))
                           (Some "TPL_A")) "X" Hx)
             (JObj [ ("scenario_name", JStr "inline") ]) eq_refl eq_refl).
  - apply (proj1 (proj2 (proj1 (assign_resolution templates None None)
                           "X" Hx))
             eq_refl eq_refl).
  - apply (proj2 (proj2 (proj1 (assign_resolution templates None
                                  (Some "TPL_Z")) "X" Hx))
             "TPL_Z" eq_refl eq_refl); [discriminate | reflexivity].
  - apply (proj2 (assign_resolution templates
                    (Some (JObj [ ("scenario_name", JStr "inline") ]))
                    (Some "TPL_A")) None).
    left. reflexivity.
Defined.

(* ===================================================================== *)
(** ** Enumerations and the error-type listing *)
(* ===================================================================== *)

Lemma BizType_of_value_Some (s : string) (b : BizType) :
  BizType_of_value s = Some b -> BizType_value b = s.
Proof.
  unfold BizType_of_value.
  destruct (String.eqb s "individual_biz") eqn:E1;
    [apply String.eqb_eq in E1; intro H; injection H as <-; subst s;
     reflexivity|].
  destruct (String.eqb s "non_biz") eqn:E2;
    [apply String.eqb_eq in E2; intro H; injection H as <-; subst s;
     reflexivity|].
  destruct (String.eqb s "corp") eqn:E3;
    [apply String.eqb_eq in E3; intro H; injection H as <-; subst s;
     reflexivity|].
  discriminate.
Qed.

(** X1. Lookup by value inverts [value] for both enumerations that are
    looked up: a string is accepted exactly when it is the value of a
    member, and then that member is the result; so no two members share a
    value. *)
Theorem enum_lookup_by_value :
  (forall s k, ErrorType_of_value s = Some k <-> ErrorType_value k = s)
  /\ (forall s b, BizType_of_value s = Some b <-> BizType_value b = s).
Proof.
  split; intros s x; split.
  - apply ErrorType_of_value_Some.
  - intros <-. apply ErrorType_of_value_value.
  - apply BizType_of_value_Some.
  - intros <-. destruct x; reflexivity.
Qed.

Lemma error_type_entry_matches_builder (D : ModelDefaults)
  (user_name : option string) (k : ErrorType) :
  exists ty msg act s,
    json_get "type" (error_type_entry k) = Some (JStr ty)
    /\ json_get "message" (error_type_entry k) = Some (JStr msg)
    /\ msg <> ""
    /\ json_get "default_action" (error_type_entry k) = Some (JStr act)
    /\ handle_scenario_build_error D
         {| be_user_name := user_name; be_error_type := Some ty;
            be_error_msg := None; be_action := None |} = to_dict s
    /\ slot act s = Some {| success := false; error_type := Some ty;
                            error_msg := Some msg |}.
Proof.
  exists (ErrorType_value k).
  destruct (ERROR_MESSAGES_complete k) as (m & Em & Hm).
  exists m, (ActionType_value (default_stage_for k)).
  eexists. split; [reflexivity|]. split.
  { unfold error_type_entry. rewrite Em. reflexivity. }
  split; [exact Hm|]. split; [reflexivity|].
  split; [apply build_error_known|].
  unfold build_error_scenario, resolved_message, message_for.
  rewrite Em. destruct k; reflexivity.
Qed.

(** X2. The error-type listing has one entry per member, in definition
    order, and each entry tells what the error builder does with that
    type when no message and no action are given: its message is
    non-empty and is the error_msg the builder stores, and its
    default_action names the slot the builder stores the failure in. *)
Theorem error_types_list_matches_builder (D : ModelDefaults)
  (user_name : option string) :
  exists entries,
    handle_error_types_list = JObj [ ("error_types", JList entries) ]
    /\ map (json_get "type") entries
       = map (fun k => Some (JStr (ErrorType_value k))) ErrorType_members
    /\ Forall
         (fun entry =>
            exists ty msg act s,
              json_get "type" entry = Some (JStr ty)
              /\ json_get "message" entry = Some (JStr msg)
              /\ msg <> ""
              /\ json_get "default_action" entry = Some (JStr act)
              /\ handle_scenario_build_error D
                   {| be_user_name := user_name; be_error_type := Some ty;
                      be_error_msg := None; be_action := None |} = to_dict s
              /\ slot act s = Some {| success := false; error_type := Some ty;
                                      error_msg := Some msg |})
         entries.
Proof.
  exists (map error_type_entry ErrorType_members).
  split; [reflexivity|]. split; [reflexivity|].
  apply Forall_map. apply Forall_forall. intros k _.
  apply error_type_entry_matches_builder.
Qed.

Lemma resource_summary_same (template_id : string) (template_data : json) :
  resource_summary template_id template_data
  = template_summary template_id template_data.
Proof.
  unfold resource_summary, template_summary.
  destruct template_data; reflexivity.
Qed.

Lemma resource_summaries_same (templates : dict json) :
  resource_summaries templates = template_summaries "all" templates.
Proof.
  induction templates as [|[id data] rest IH]; [reflexivity|].
  cbn [resource_summaries template_summaries].
  rewrite resource_summary_same, IH. reflexivity.
Qed.

(** X3. Called with a [str], the two resources give what the two tools
    give: the templates resource holds exactly the entries the template
    listing for category "all" holds (and raises when that raises), the
    error-types resource is the reply of the error-type listing, and
    every other text raises ValueError.  Called with an [AnyUrl], as the
    registered handler is, it raises that ValueError for every URI, the
    two known ones included, since neither comparison with a [str]
    literal holds. *)
Theorem read_resource_agrees_with_tools (templates : dict json) :
  (forall entries,
     read_resource templates (UriStr "scenario://templates")
       = Ok (JObj [ ("templates", JList entries) ])
     <-> handle_template_list templates (Some "all")
         = Ok (JObj [ ("templates", JList entries);
                      ("count", JInt (Z.of_nat (length entries))) ]))
  /\ (forall e,
        read_resource templates (UriStr "scenario://templates") = Raise e
        <-> handle_template_list templates (Some "all") = Raise e)
  /\ read_resource templates (UriStr "scenario://error-types")
     = Ok handle_error_types_list
  /\ (forall uri, uri <> "scenario://templates" ->
        uri <> "scenario://error-types" ->
        read_resource templates (UriStr uri)
        = Raise ("Unknown resource URI: " ++ uri))
  /\ (forall uri,
        read_resource templates (UriAnyUrl uri)
        = Raise ("Unknown resource URI: " ++ uri)).
Proof.
  unfold read_resource, handle_template_list.
  cbn [uri_eq uri_text String.eqb Ascii.eqb Bool.eqb or_default].
  rewrite resource_summaries_same.
  destruct (template_summaries "all" templates) as [l|e0]; cbn [bind].
  - split; [|split; [|split; [|split]]].
    + intro entries. split; intro H; injection H as <-; reflexivity.
    + intro e. split; discriminate.
    + reflexivity.
    + intros uri H1 H2. apply String.eqb_neq in H1, H2.
      rewrite H1, H2. reflexivity.
    + reflexivity.
  - split; [|split; [|split; [|split]]].
    + intro entries. split; discriminate.
    + intro e. split; intro H; injection H as <-; reflexivity.
    + reflexivity.
    + intros uri H1 H2. apply String.eqb_neq in H1, H2.
      rewrite H1, H2. reflexivity.
    + reflexivity.
Qed.

Lemma read_resource_agrees_with_tools_witness :
  read_resource [] (UriStr "scenario://nothing")
  = Raise "Unknown resource URI: scenario://nothing"
  /\ read_resource [] (UriAnyUrl "scenario://templates")
     = Raise "Unknown resource URI: scenario://templates".
Proof.
  split.
  - apply (proj1 (proj2 (proj2 (proj2 (read_resource_agrees_with_tools [])))));
      discriminate.
  - apply (proj2 (proj2 (proj2 (proj2 (read_resource_agrees_with_tools []))))).
Defined.

(* ===================================================================== *)
(** ** More on the template catalog *)
(* ===================================================================== *)

(** X4. On a catalog of scenario representations the "error" and the
    "normal" listings split the catalog: together they have as many
    entries as the catalog, and an id of the catalog is in one exactly
    when it is not in the other. *)
Theorem template_list_error_normal_split (templates : dict json) :
  catalog_of_representations templates ->
  exists errors normals,
    listed_ids (handle_template_list templates (Some "error")) = Some errors
    /\ listed_ids (handle_template_list templates (Some "normal"))
       = Some normals
    /\ (length errors + length normals = length templates)%nat
    /\ (forall id, In id (dict_keys templates) ->
          (In id errors <-> ~ In id normals)).
Proof.
  intro H.
  exists (filter (str_contains "ERR") (dict_keys templates)),
         (filter (fun id => negb (str_contains "ERR" id)) (dict_keys templates)).
  split.
  { rewrite (proj1 (template_list_kept templates _ H)). f_equal.
    apply filter_ext. intro id. unfold skipped. cbn.
    destruct (str_contains "ERR" id), (str_contains "CORP" id); reflexivity. }
  split.
  { rewrite (proj1 (template_list_kept templates _ H)). f_equal.
    apply filter_ext. intro id. unfold skipped. cbn.
    destruct (str_contains "ERR" id), (str_contains "CORP" id); reflexivity. }
  split.
  { rewrite filter_length. unfold dict_keys. apply length_map. }
  intros id Hin. rewrite !filter_In.
  destruct (str_contains "ERR" id); cbn; intuition congruence.
Qed.

Lemma template_list_error_normal_split_witness :
  exists errors normals,
    listed_ids
      (handle_template_list
         [ ("TPL_NORMAL_A", JObj []); ("TPL_ERR_B", JObj []);
           ("TPL_CORP_C", JObj []) ] (Some "error")) = Some errors
    /\ listed_ids
         (handle_template_list
            [ ("TPL_NORMAL_A", JObj []); ("TPL_ERR_B", JObj []);
              ("TPL_CORP_C", JObj []) ] (Some "normal")) = Some normals
    /\ (length errors + length normals = 3)%nat.
Proof.
  destruct (template_list_error_normal_split
              [ ("TPL_NORMAL_A", JObj []); ("TPL_ERR_B", JObj []);
                ("TPL_CORP_C", JObj []) ])
    as (errors & normals & E1 & E2 & Hlen & _).
  - repeat constructor.
  - exists errors, normals. repeat split; assumption.
Defined.

Lemma template_summaries_unfiltered (category : string)
  (templates : dict json) :
  category <> "normal" -> category <> "error" -> category <> "corp" ->
  template_summaries category templates = template_summaries "all" templates.
Proof.
  intros H1 H2 H3. apply String.eqb_neq in H1, H2, H3.
  induction templates as [|[id data] rest IH]; [reflexivity|].
  cbn [template_summaries]. rewrite IH.
  assert (E : skipped category id = false).
  { unfold skipped. rewrite H1, H2, H3.
    destruct (negb (String.eqb category "all")); reflexivity. }
  rewrite E. reflexivity.
Qed.

(** X5. A category that is none of "normal", "error" and "corp" filters
    nothing: the reply is the reply for "all", for every catalog. *)
Theorem template_list_unknown_category (templates : dict json)
  (category : string) :
  category <> "normal" -> category <> "error" -> category <> "corp" ->
  handle_template_list templates (Some category)
  = handle_template_list templates (Some "all").
Proof.
  intros H1 H2 H3. unfold handle_template_list. cbn [or_default].
  rewrite (template_summaries_unfiltered category templates H1 H2 H3).
  reflexivity.
Qed.

Lemma template_list_unknown_category_witness :
  listed_ids
    (handle_template_list
       [ ("TPL_ERR_B", JObj []); ("TPL_CORP_C", JObj []) ] (Some "ERROR"))
  = Some ["TPL_ERR_B"; "TPL_CORP_C"].
Proof.
  rewrite (template_list_unknown_category
             [ ("TPL_ERR_B", JObj []); ("TPL_CORP_C", JObj []) ] "ERROR");
    [reflexivity | discriminate | discriminate | discriminate].
Defined.

Lemma template_summary_only_summarizable (template_id : string)
  (template_data entry : json) :
  template_summary template_id template_data = Ok entry ->
  summarizable template_data = true.
Proof.
  destruct template_data as [| | | | | |d]; try discriminate.
  unfold template_summary, summarizable, obj_get, get_or.
  destruct (dict_get "refund_result" d) as [[| | | | | |r]|];
    cbn [bind]; try discriminate; reflexivity.
Qed.

(** X6. The template listing replies, rather than raising, exactly when
    every template its category keeps is a mapping whose refund_result,
    if present, is a mapping; a template the category skips is never
    looked into. *)
Theorem template_list_replies_iff (templates : dict json)
  (category : option string) :
  (exists reply, handle_template_list templates category = Ok reply)
  <-> Forall (fun entry =>
                skipped (or_default category "all") (fst entry) = true
                \/ summarizable (snd entry) = true) templates.
Proof.
  unfold handle_template_list.
  set (c := or_default category "all").
  assert (G : (exists l, template_summaries c templates = Ok l)
              <-> Forall (fun entry => skipped c (fst entry) = true
                            \/ summarizable (snd entry) = true) templates).
  { induction templates as [|[id data] rest IH].
    - split; [constructor | exists []; reflexivity].
    - cbn [template_summaries]. split.
      + intros [l Hl]. destruct (skipped c id) eqn:Es.
        * constructor; [left; exact Es | apply IH; exists l; exact Hl].
        * destruct (template_summary id data) as [e|] eqn:Et;
            [|discriminate Hl].
          destruct (template_summaries c rest) as [l'|]; [|discriminate Hl].
          constructor.
          -- right. eapply template_summary_only_summarizable. exact Et.
          -- apply IH. exists l'. reflexivity.
      + intro HF. inversion HF as [|x xs Hx Hxs]; subst.
        apply IH in Hxs. destruct Hxs as [l' El']. cbn [fst snd] in Hx.
        destruct (skipped c id) eqn:Es.
        * exists l'. exact El'.
        * destruct Hx as [Hx|Hx]; [discriminate Hx|].
          destruct (template_summary_ok id data Hx) as (e & Ee & _).
          rewrite Ee, El'. eexists. reflexivity. }
  split.
  - intros [reply Hr]. apply G.
    destruct (template_summaries c templates) as [l|]; [|discriminate Hr].
    exists l. reflexivity.
  - intro HF. apply G in HF. destruct HF as [l El]. rewrite El.
    eexists. reflexivity.
Qed.

Lemma template_list_replies_iff_witness :
  exists reply,
    handle_template_list
      [ ("TPL_A", JObj []); ("TPL_ERR_BROKEN", JNull) ] (Some "normal")
    = Ok reply.
Proof.
  apply (proj2 (template_list_replies_iff
                  [ ("TPL_A", JObj []); ("TPL_ERR_BROKEN", JNull) ]
                  (Some "normal"))).
  repeat constructor; cbn; tauto.
Defined.

(** X7. Listing a catalog of serialized scenarios never raises, and each
    summary reports the stored scenario's own description, total refund
    and business type, in catalog order. *)
Theorem template_list_of_scenarios
  (scenarios : list (string * ScenarioConfig)) :
  handle_template_list
    (map (fun entry => (fst entry, to_dict (snd entry))) scenarios) None
  = Ok (JObj
      [ ("templates",
          JList
            (map (fun entry =>
                    JObj [ ("template_id", JStr (fst entry));
                           ("description", JStr (description (snd entry)));
                           ("total_refund",
                             JInt (total_refund (refund_result (snd entry))));
                           ("biz_type",
                             JStr (BizType_value (biz_type (snd entry)))) ])
                 scenarios));
        ("count", JInt (Z.of_nat (length scenarios))) ]).
Proof.
  unfold handle_template_list. cbn [or_default].
  assert (E : template_summaries "all"
                (map (fun entry => (fst entry, to_dict (snd entry))) scenarios)
              = Ok (map (fun entry =>
                    JObj [ ("template_id", JStr (fst entry));
                           ("description", JStr (description (snd entry)));
                           ("total_refund",
                             JInt (total_refund (refund_result (snd entry))));
                           ("biz_type",
                             JStr (BizType_value (biz_type (snd entry)))) ])
                 scenarios)).
  { induction scenarios as [|[id s] rest IH]; [reflexivity|].
    cbn [map template_summaries fst snd].
    change (skipped "all" id) with false. cbv iota.
    rewrite IH. reflexivity. }
  rewrite E. cbn [bind]. rewrite length_map. reflexivity.
Qed.

(** X8. Loading a template by an id of the catalog returns a template
    stored under that id; loading any other id (or none) returns the
    not-found error with every id of the catalog, in catalog order. *)
Theorem template_load_by_id (templates : dict json)
  (template_id : option string) :
  (In (or_default template_id "") (dict_keys templates) ->
   In (or_default template_id "",
       handle_template_load templates template_id) templates)
  /\ (~ In (or_default template_id "") (dict_keys templates) ->
      handle_template_load templates template_id
      = JObj [ ("error",
                 JStr ("Template not found: " ++ or_default template_id ""));
               ("available_templates",
                 JList (map JStr (map fst templates))) ]).
Proof.
  unfold handle_template_load. set (t := or_default template_id "").
  assert (G : match dict_get t templates with
              | Some data => In (t, data) templates
              | None => ~ In t (dict_keys templates)
              end).
  { induction templates as [|[k v] rest IH]; [intros []|].
    cbn [dict_get]. destruct (String.eqb k t) eqn:E.
    - apply String.eqb_eq in E. subst k. left. reflexivity.
    - destruct (dict_get t rest).
      + right. exact IH.
      + apply String.eqb_neq in E. intros [H|H]; [exact (E H) | exact (IH H)]. }
  destruct (dict_get t templates) as [data|]; split; intro H.
  - exact G.
  - contradiction (H (in_map fst _ _ G)).
  - contradiction.
  - reflexivity.
Qed.

Lemma template_load_by_id_witness :
  In ("TPL_B", handle_template_load
                 [ ("TPL_A", JInt 1); ("TPL_B", JInt 2) ] (Some "TPL_B"))
     [ ("TPL_A", JInt 1); ("TPL_B", JInt 2) ]
  /\ handle_template_load [ ("TPL_A", JInt 1); ("TPL_B", JInt 2) ] None
     = JObj [ ("error", JStr "Template not found: ");
              ("available_templates", JList [JStr "TPL_A"; JStr "TPL_B"]) ].
Proof.
  split.
  - apply (proj1 (template_load_by_id
                    [ ("TPL_A", JInt 1); ("TPL_B", JInt 2) ] (Some "TPL_B"))).
    cbn. tauto.
  - apply (proj2 (template_load_by_id
                    [ ("TPL_A", JInt 1); ("TPL_B", JInt 2) ] None)).
    cbn. intros [H|[H|[]]]; discriminate H.
Defined.

(** X9. With a non-empty external id, no inline scenario and a non-empty
    template id, assignment does with the template what template loading
    returns for that id: a template of the catalog is the scenario handed
    to the store, and for an unknown id the reply is the very error reply
    of template loading. *)
Theorem assign_uses_template_load (templates : dict json)
  (user_ern template_id : string) :
  user_ern <> "" -> template_id <> "" ->
  handle_scenario_assign templates
    {| as_user_ern := Some user_ern; as_scenario := None;
       as_template_id := Some template_id |}
  = let loaded := handle_template_load templates (Some template_id) in
    if existsb (String.eqb template_id) (dict_keys templates)
    then PutItem (JObj [ ("user_ern", JStr user_ern);
                         ("scenario_config", loaded) ])
                 (assign_reply user_ern loaded)
    else Reply loaded.
Proof.
  intros Hu Ht. unfold handle_scenario_assign, handle_template_load.
  cbn [as_user_ern as_scenario as_template_id or_default chosen_scenario
       scenario_of_template].
  destruct user_ern as [|c u]; [congruence|].
  destruct template_id as [|c' t]; [congruence|].
  cbn [str_truthy negb].
  assert (G : existsb (String.eqb (String c' t)) (dict_keys templates)
              = match dict_get (String c' t) templates with
                | Some _ => true | None => false end).
  { induction templates as [|[k v] rest IH]; [reflexivity|].
    cbn [dict_keys map fst existsb dict_get]. rewrite String.eqb_sym.
    destruct (String.eqb k (String c' t)); [reflexivity | exact IH]. }
  rewrite G. destruct (dict_get (String c' t) templates); reflexivity.
Qed.

Lemma assign_uses_template_load_witness :
  handle_scenario_assign [ ("TPL_A", JObj [ ("biz_type", JStr "corp") ]) ]
    {| as_user_ern := Some "X"; as_scenario := None;
       as_template_id := Some "TPL_A" |}
  = PutItem (JObj [ ("user_ern", JStr "X");
                    ("scenario_config", JObj [ ("biz_type", JStr "corp") ]) ])
            (assign_reply "X" (JObj [ ("biz_type", JStr "corp") ])).
Proof.
  apply (assign_uses_template_load
           [ ("TPL_A", JObj [ ("biz_type", JStr "corp") ]) ] "X" "TPL_A");
    discriminate.
Defined.

(* ===================================================================== *)
(** ** The normal builder *)
(* ===================================================================== *)











Example format_commas_examples :
  format_commas 1234567 = "1,234,567" /\ format_commas (-1234) = "-1,234"
  /\ format_commas 0 = "0" /\ format_commas 999 = "999"
  /\ format_commas 1000 = "1,000" /\ str_of_int (-1234) = "-1234".
Proof. repeat split. Qed.

(* ===================================================================== *)
(** ** Builders and the validator together *)
(* ===================================================================== *)

(** What the validator replies on the representation of a scenario that
    sets no phone, no birthday and no tin. *)
Lemma validate_plain_scenario (D : ModelDefaults) (s : ScenarioConfig) :
  phone (user_info s) = None -> birthday (user_info s) = None ->
  tin (taxpayer_info s) = None ->
  handle_scenario_validate D (Some (to_dict s))
  = JObj [ ("valid", JBool true);
           ("errors", JList []);
           ("warnings",
             JList (match biz_type s with
                    | INDIVIDUAL_BIZ =>
                        if Z.eqb (total_refund (refund_result s)) 0
                        then [JStr "개인사업자 시나리오인데 환급액이 0원입니다."]
                        else []
                    | _ => []
                    end)) ].
Proof.
  intros Hp Hb Ht. unfold handle_scenario_validate, validation_lists.
  cbn [or_default]. rewrite from_dict_to_dict, Hp, Hb, Ht.
  destruct (biz_type s); [destruct (Z.eqb _ 0)| |]; reflexivity.
Qed.

(** X12. What the normal builder returns always passes validation with
    no error; the only possible warning is the zero-refund one, given
    exactly for an individual business with total 0. *)
Theorem build_normal_validates (D : ModelDefaults)
  (arguments : build_normal_arguments) (b : BizType) :
  BizType_value b = or_default (bn_biz_type arguments) "individual_biz" ->
  exists payload,
    handle_scenario_build_normal D arguments = Ok payload
    /\ handle_scenario_validate D (Some payload)
       = JObj [ ("valid", JBool true);
                ("errors", JList []);
                ("warnings",
                  JList (match b with
                         | INDIVIDUAL_BIZ =>
                             if Z.eqb (or_default (bn_total_refund arguments)
                                         0%Z) 0
                             then [JStr
                                "개인사업자 시나리오인데 환급액이 0원입니다."]
                             else []
                         | _ => []
                         end)) ].
Proof.
  intro Hb. unfold handle_scenario_build_normal.
  assert (E : BizType_of_value
                (or_default (bn_biz_type arguments) "individual_biz") = Some b)
    by (rewrite <- Hb; destruct b; reflexivity).
  rewrite E. eexists. split; [reflexivity|].
  rewrite validate_plain_scenario by reflexivity. reflexivity.
Qed.

Lemma build_normal_validates_witness :
  exists payload,
    handle_scenario_build_normal
      {| default_scenario_name := ""; default_description := "";
         default_queue_name := "" |}
      {| bn_user_name := Some "kim"; bn_total_refund := Some 0%Z;
         bn_biz_type := None; bn_창중감_환급액 := None;
         bn_고용증대_환급액 := None; bn_사회보험료_환급액 := None |}
    = Ok payload
    /\ handle_scenario_validate
         {| default_scenario_name := ""; default_description := "";
            default_queue_name := "" |} (Some payload)
       = JObj [ ("valid", JBool true);
                ("errors", JList []);
                ("warnings",
                  JList [JStr "개인사업자 시나리오인데 환급액이 0원입니다."]) ].
Proof.
  apply (build_normal_validates
           {| default_scenario_name := ""; default_description := "";
              default_queue_name := "" |}
           {| bn_user_name := Some "kim"; bn_total_refund := Some 0%Z;
              bn_biz_type := None; bn_창중감_환급액 := None;
              bn_고용증대_환급액 := None; bn_사회보험료_환급액 := None |}
           INDIVIDUAL_BIZ eq_refl).
Defined.

Lemma build_error_scenario_plain (D : ModelDefaults) (user_name : string)
  (k : ErrorType) (error_msg action_str : string) :
  let s := build_error_scenario D user_name k error_msg action_str in
  user_info s = {| name := user_name; phone := None; birthday := None |}
  /\ taxpayer_info s = TaxpayerInfo_default
  /\ biz_type s = INDIVIDUAL_BIZ
  /\ refund_result s = RefundResult_default.
Proof.
  unfold build_error_scenario.
  repeat match goal with |- context [if ?c then _ else _] => destruct c end;
    repeat split.
Qed.

(** X13. An error scenario, for any catalog error type, message and
    action, passes validation with no error: the failing slot is not
    something the validator looks at.  The reply always carries the
    zero-refund warning. *)
Theorem build_error_validates (D : ModelDefaults)
  (user_name error_msg action : option string) (k : ErrorType) :
  handle_scenario_validate D
    (Some (handle_scenario_build_error D
             {| be_user_name := user_name;
                be_error_type := Some (ErrorType_value k);
                be_error_msg := error_msg; be_action := action |}))
  = JObj [ ("valid", JBool true);
           ("errors", JList []);
           ("warnings",
             JList [JStr "개인사업자 시나리오인데 환급액이 0원입니다."]) ].
Proof.
  rewrite build_error_known.
  destruct (build_error_scenario_plain D
              (or_default user_name "테스트사용자") k
              (or_default error_msg "") (or_default action ""))
    as (Hu & Ht & Hb & Hr).
  rewrite validate_plain_scenario;
    [| rewrite Hu; reflexivity | rewrite Hu; reflexivity
     | rewrite Ht; reflexivity].
  rewrite Hb, Hr. reflexivity.
Qed.

(** X14. A progress scenario passes validation with no error, whatever
    steps are given; it carries the zero-refund warning exactly when the
    total is 0 or omitted. *)
Theorem build_progress_validates (D : ModelDefaults)
  (arguments : build_progress_arguments) :
  handle_scenario_validate D
    (Some (handle_scenario_build_progress arguments))
  = JObj [ ("valid", JBool true);
           ("errors", JList []);
           ("warnings",
             JList (if Z.eqb (or_default (bp_total_refund arguments) 0%Z) 0
                    then [JStr "개인사업자 시나리오인데 환급액이 0원입니다."]
                    else [])) ].
Proof.
  unfold handle_scenario_build_progress.
  rewrite validate_plain_scenario by reflexivity. reflexivity.
Qed.

(* ===================================================================== *)
(** ** More on the error builder and the validator *)
(* ===================================================================== *)

(** X15. For every catalog error type and every message and action, the
    error builder returns a scenario with exactly one failing slot: the
    slot the action names when it names one of the four, the load slot
    for any other non-empty action; the other three slots hold the
    default.  The failing slot carries the given message when that is
    non-empty and the catalog message otherwise. *)
Theorem build_error_one_failing_slot (D : ModelDefaults)
  (user_name message action : option string) (k : ErrorType) :
  let given := or_default action "" in
  exists s stage failing,
    handle_scenario_build_error D
      {| be_user_name := user_name;
         be_error_type := Some (ErrorType_value k);
         be_error_msg := message; be_action := action |} = to_dict s
    /\ In stage slot_names
    /\ (In given slot_names -> stage = given)
    /\ (~ In given slot_names -> given <> "" -> stage = "load")
    /\ Forall (fun st =>
                 slot st s = Some (if String.eqb st stage then failing
                                   else ActionConfig_default))
              slot_names
    /\ success failing = false
    /\ error_type failing = Some (ErrorType_value k)
    /\ (forall m, message = Some m -> m <> "" ->
          error_msg failing = Some m)
    /\ (message = None \/ message = Some "" ->
          error_msg failing = Some (message_for k)).
Proof.
  intro given.
  set (failing :=
         {| success := false; error_type := Some (ErrorType_value k);
            error_msg := Some (resolved_message k (or_default message "")) |}).
  set (ra := resolved_action k given).
  exists (build_error_scenario D (or_default user_name "테스트사용자") k
            (or_default message "") given),
    (if String.eqb ra "cert_request" then "cert_request"
     else if String.eqb ra "cert_response" then "cert_response"
     else if String.eqb ra "check" then "check" else "load"),
    failing.
  split; [apply build_error_known|].
  assert (Hra : given <> "" -> ra = given).
  { intro Hg. unfold ra, resolved_action. destruct given; [congruence|].
    reflexivity. }
  split.
  { repeat match goal with |- context [if ?c then _ else _] =>
      destruct c end; cbn; tauto. }
  split.
  { intro Hin.
    assert (Hg : given <> "")
      by (intro E; rewrite E in Hin; cbn in Hin;
          repeat (destruct Hin as [Hin|Hin]; [discriminate Hin|]);
          exact Hin).
    rewrite (Hra Hg). cbn in Hin.
    destruct Hin as [<-|[<-|[<-|[<-|[]]]]]; reflexivity. }
  split.
  { intros Hnin Hg. rewrite (Hra Hg).
    destruct (String.eqb given "cert_request") eqn:E1;
      [apply String.eqb_eq in E1; exfalso; apply Hnin; rewrite E1; cbn; tauto|].
    destruct (String.eqb given "cert_response") eqn:E2;
      [apply String.eqb_eq in E2; exfalso; apply Hnin; rewrite E2; cbn; tauto|].
    destruct (String.eqb given "check") eqn:E3;
      [apply String.eqb_eq in E3; exfalso; apply Hnin; rewrite E3; cbn; tauto|].
    reflexivity. }
  split.
  { unfold build_error_scenario. fold ra. fold failing.
    destruct (String.eqb ra "cert_request");
      [repeat constructor|].
    destruct (String.eqb ra "cert_response");
      [repeat constructor|].
    destruct (String.eqb ra "check"); repeat constructor. }
  split; [reflexivity|]. split; [reflexivity|]. split.
  - intros m -> Hm. cbn. unfold resolved_message.
    destruct m; [congruence | reflexivity].
  - intros [-> | ->]; reflexivity.
Qed.

Lemma build_error_one_failing_slot_witness :
  exists s,
    handle_scenario_build_error
      {| default_scenario_name := ""; default_description := "";
         default_queue_name := "" |}
      {| be_user_name := None;
         be_error_type := Some (ErrorType_value LOGIN_FAILED);
         be_error_msg := Some "custom"; be_action := Some "cert_request" |}
    = to_dict s
    /\ slot "cert_request" s
        = Some {| success := false; error_type := Some "홈택스로그인실패";
                  error_msg := Some "custom" |}
    /\ slot "check" s = Some ActionConfig_default.
Proof.
  destruct (build_error_one_failing_slot
              {| default_scenario_name := ""; default_description := "";
                 default_queue_name := "" |}
              None (Some "custom") (Some "cert_request") LOGIN_FAILED)
    as (s & stage & failing & E & _ & Hst & _ & Hs & H1 & H2 & H3 & _).
  exists s. split; [exact E|].
  assert (Es : stage = "cert_request") by (apply Hst; cbn; tauto).
  subst stage.
  assert (Ef : failing = {| success := false;
                            error_type := Some "홈택스로그인실패";
                            error_msg := Some "custom" |}).
  { destruct failing as [a b c]. cbn in H1, H2.
    specialize (H3 "custom" eq_refl ltac:(discriminate)). cbn in H3.
    subst. reflexivity. }
  pose proof (proj1 (Forall_forall _ _) Hs) as Hall. split.
  - rewrite (Hall "cert_request" ltac:(cbn; tauto)). cbn. rewrite Ef.
    reflexivity.
  - rewrite (Hall "check" ltac:(cbn; tauto)). reflexivity.
Defined.

Lemma set_with_other_length_false (x : option string) (n : nat) :
  set_with_other_length x n = false
  <-> match x with
      | None => True
      | Some v => v = "" \/ py_len v = n
      end.
Proof.
  destruct x as [v|]; cbn; [|tauto].
  destruct v as [|c v]; cbn; [tauto|].
  destruct (Nat.eqb_spec
              ((if is_continuation c then 0 else 1) + py_len v)%nat n);
    cbn; split; intro H; try tauto; try congruence.
  destruct H as [H|H]; [discriminate H | contradiction].
Qed.

(** X16. The validator replies valid exactly when the input deserializes
    and both the birthday and the tin are unset, empty, or of the
    expected length (8 and 18 code points): an empty string is treated
    as unset, only the length is looked at, not the content, and phone
    and refund never matter. *)
Theorem validate_valid_iff (D : ModelDefaults) (scenario : option json) :
  json_get "valid" (handle_scenario_validate D scenario) = Some (JBool true)
  <-> exists s,
        from_dict D (or_default scenario (JObj [])) = Ok s
        /\ match birthday (user_info s) with
           | None => True
           | Some v => v = "" \/ py_len v = 8%nat
           end
        /\ match tin (taxpayer_info s) with
           | None => True
           | Some v => v = "" \/ py_len v = 18%nat
           end.
Proof.
  unfold handle_scenario_validate, validation_lists.
  destruct (from_dict D (or_default scenario (JObj []))) as [s|e].
  - split.
    + intro H. exists s. split; [reflexivity|].
      destruct (set_with_other_length (birthday (user_info s)) 8) eqn:Eb;
        [discriminate H|].
      destruct (set_with_other_length (tin (taxpayer_info s)) 18) eqn:Et;
        [discriminate H|].
      split; apply set_with_other_length_false; assumption.
    + intros (s' & Hs & Hb & Ht). injection Hs as <-.
      apply set_with_other_length_false in Hb, Ht. rewrite Hb, Ht.
      reflexivity.
  - cbn. split; [discriminate|]. intros (s & H & _). discriminate H.
Qed.

Lemma validate_valid_iff_witness :
  json_get "valid"
    (handle_scenario_validate
       {| default_scenario_name := ""; default_description := "";
          default_queue_name := "" |}
       (Some (JObj [ ("user_info", JObj [ ("birthday", JStr "") ]);
                     ("taxpayer_info",
                       JObj [ ("tin", JStr "123456789012345678") ]) ])))
  = Some (JBool true).
Proof.
  apply (proj2 (validate_valid_iff
                  {| default_scenario_name := ""; default_description := "";
                     default_queue_name := "" |}
                  (Some (JObj [ ("user_info",
                                  JObj [ ("birthday", JStr "") ]);
                                ("taxpayer_info",
                                  JObj [ ("tin",
                                           JStr "123456789012345678") ]) ])))).
  eexists. split; [reflexivity|]. cbn. split; [left|right]; reflexivity.
Defined.

Example validate_length_only (D : ModelDefaults) :
  json_get "valid"
    (handle_scenario_validate D
       (Some (JObj [ ("user_info",
                       JObj [ ("birthday", JStr "생일은팔글자이다") ]) ])))
  = Some (JBool true).
Proof. reflexivity. Qed.

(* ===================================================================== *)
(** ** More on assignment; unassignment *)
(* ===================================================================== *)

Lemma dict_get_key {V : Type} (key : string) (d : dict V) :
  match dict_get key d with
  | Some v => In (key, v) d
  | None => ~ In key (dict_keys d)
  end.
Proof.
  induction d as [|[k v] rest IH]; [intros []|].
  cbn [dict_get]. destruct (String.eqb k key) eqn:E.
  - apply String.eqb_eq in E. subst k. left. reflexivity.
  - destruct (dict_get key rest).
    + right. exact IH.
    + apply String.eqb_neq in E. intros [H|H]; [exact (E H) | exact (IH H)].
Qed.

(** X17. Assignment calls the store exactly when the external id is
    non-empty and a scenario can be chosen: a non-empty inline scenario,
    or else a non-empty template id that is a key of the catalog.  In
    every other case it replies without touching the store. *)
Theorem assign_calls_store_iff (templates : dict json)
  (arguments : assign_arguments) :
  (exists item k,
     handle_scenario_assign templates arguments = PutItem item k)
  <-> or_default (as_user_ern arguments) "" <> ""
      /\ (opt_truthy truthy (as_scenario arguments) = true
          \/ exists t, as_template_id arguments = Some t /\ t <> ""
                       /\ In t (dict_keys templates)).
Proof.
  destruct arguments as [u sc t]. unfold handle_scenario_assign.
  cbn [as_user_ern as_scenario as_template_id].
  destruct (or_default u "") as [|c u'] eqn:Eu; cbn [str_truthy negb].
  { split; [intros (i & k & H); discriminate H | intros [H _]; congruence]. }
  assert (Ht : (exists s, scenario_of_template templates t = inr s)
               <-> exists t', t = Some t' /\ t' <> ""
                              /\ In t' (dict_keys templates)).
  { destruct t as [[|c' t']|]; cbn.
    - split; [intros [s H]; discriminate H
             | intros (x & H & Hx & _); injection H as <-; congruence].
    - pose proof (dict_get_key (String c' t') templates) as G.
      destruct (dict_get (String c' t') templates) as [v|].
      + split; [|intros _; exists v; reflexivity].
        intros _. exists (String c' t'). split; [reflexivity|].
        split; [discriminate|]. apply (in_map fst _ _ G).
      + split; [intros [s H]; discriminate H|].
        intros (x & H & _ & Hin). injection H as <-. contradiction.
    - split; [intros [s H]; discriminate H
             | intros (x & H & _); discriminate H]. }
  split.
  - intros (item & k & H). split; [discriminate|].
    destruct sc as [s|]; cbn [chosen_scenario opt_truthy] in *.
    + destruct (truthy s); [left; reflexivity|].
      right. apply Ht.
      destruct (scenario_of_template templates t) as [r|s'];
        [discriminate H | exists s'; reflexivity].
    + right. apply Ht.
      destruct (scenario_of_template templates t) as [r|s'];
        [discriminate H | exists s'; reflexivity].
  - intros [_ [Hs | Hx]].
    + destruct sc as [s|]; cbn in Hs; [|discriminate Hs].
      cbn [chosen_scenario]. rewrite Hs. do 2 eexists. reflexivity.
    + apply Ht in Hx. destruct Hx as [s' Es'].
      destruct sc as [s|]; cbn [chosen_scenario];
        [destruct (truthy s)|]; try rewrite Es'; do 2 eexists; reflexivity.
Qed.

Lemma assign_calls_store_iff_witness :
  exists item k,
    handle_scenario_assign [ ("TPL_A", JObj [ ("biz_type", JStr "corp") ]) ]
      {| as_user_ern := Some "X"; as_scenario := Some (JObj []);
         as_template_id := Some "TPL_A" |} = PutItem item k.
Proof.
  apply (proj2 (assign_calls_store_iff
                  [ ("TPL_A", JObj [ ("biz_type", JStr "corp") ]) ]
                  {| as_user_ern := Some "X"; as_scenario := Some (JObj []);
                     as_template_id := Some "TPL_A" |})).
  split; [discriminate|]. right. exists "TPL_A".
  split; [reflexivity|]. split; [discriminate | cbn; tauto].
Defined.

(** X18. The reply of an assignment has success=true exactly when the
    store was called and the call ended without an exception; then the
    reply names the external id and does not repeat the scenario.  A
    reply given without calling the store is an error reply: it has an
    "error" text and no "success" key at all. *)
Theorem assign_success_iff (templates : dict json)
  (arguments : assign_arguments) (put_item : json -> result unit) :
  let reply := run_store put_item (handle_scenario_assign templates arguments) in
  (json_get "success" reply = Some (JBool true)
   <-> exists item k,
         handle_scenario_assign templates arguments = PutItem item k
         /\ put_item item = Ok tt)
  /\ (json_get "success" reply = Some (JBool true) ->
      json_get "user_ern" reply
        = Some (JStr (or_default (as_user_ern arguments) ""))
      /\ json_get "scenario" reply = None)
  /\ (forall early,
        handle_scenario_assign templates arguments = Reply early ->
        json_get "success" early = None
        /\ exists text, json_get "error" early = Some (JStr text)).
Proof.
  intro reply. subst reply. unfold handle_scenario_assign.
  destruct (or_default (as_user_ern arguments) "") as [|c u];
    cbn [str_truthy negb].
  { cbn. split; [split|split]; try discriminate.
    - intros (i & k & H & _). discriminate H.
    - intros early H. injection H as <-. split; [reflexivity|].
      eexists. reflexivity. }
  destruct (chosen_scenario templates (as_scenario arguments)
              (as_template_id arguments)) as [early|sc] eqn:Ec.
  - assert (He : json_get "success" early = None
                 /\ exists text, json_get "error" early = Some (JStr text)).
    { unfold chosen_scenario, scenario_of_template in Ec.
      repeat match type of Ec with
             | context [match ?x with _ => _ end] => destruct x
             end; try discriminate Ec; injection Ec as <-;
        (split; [reflexivity | eexists; reflexivity]). }
    cbn [run_store]. rewrite (proj1 He). split; [split|split];
      try discriminate.
    + intros (i & k & H & _). discriminate H.
    + intros early' H. injection H as <-. exact He.
  - cbn [run_store].
    destruct (put_item (assign_item (String c u) sc)) as [[]|e] eqn:Ep; cbn.
    + split; [split|split]; auto; try discriminate.
      intros _. do 2 eexists. split; [reflexivity | exact Ep].
    + split; [split|split]; try discriminate.
      intros (i & k & H & Hp). injection H as <- _. congruence.
Qed.

Lemma assign_success_iff_witness :
  json_get "success"
    (run_store (fun _ => Ok tt)
       (handle_scenario_assign []
          {| as_user_ern := Some "X";
             as_scenario := Some (JObj [ ("scenario_name", JStr "s") ]);
             as_template_id := None |}))
  = Some (JBool true)
  /\ json_get "success" (JObj [ ("error", JStr "user_ern is required") ])
     = None.
Proof.
  split.
  - apply (proj2 (proj1 (assign_success_iff []
                    {| as_user_ern := Some "X";
                       as_scenario :=
                         Some (JObj [ ("scenario_name", JStr "s") ]);
                       as_template_id := None |} (fun _ => Ok tt)))).
    do 2 eexists. split; reflexivity.
  - apply (proj2 (proj2 (assign_success_iff []
                    {| as_user_ern := Some "";
                       as_scenario :=
                         Some (JObj [ ("scenario_name", JStr "s") ]);
                       as_template_id := None |} (fun _ => Ok tt)))
             (JObj [ ("error", JStr "user_ern is required") ]) eq_refl).
Defined.

(** X19. Unassignment with an empty or missing external id replies the
    missing-id error and never calls the store; otherwise it asks the
    store to delete the key made of that id, and the reply has
    success=true exactly when the call ended without an exception; on an
    exception the reply's error text ends with the store's reason and
    the reply holds no scenario. *)
Theorem unassign_outcome (user_ern : option string)
  (delete_item : json -> result unit) :
  let id := or_default user_ern "" in
  let reply := run_delete delete_item (handle_scenario_unassign user_ern) in
  (id = "" ->
   handle_scenario_unassign user_ern
   = ReplyNow (JObj [ ("error", JStr "user_ern is required") ]))
  /\ (json_get "success" reply = Some (JBool true)
      <-> id <> "" /\ delete_item (JObj [ ("user_ern", JStr id) ]) = Ok tt)
  /\ (forall e, id <> "" ->
        delete_item (JObj [ ("user_ern", JStr id) ]) = Raise e ->
        reply = JObj [ ("success", JBool false);
                       ("error", JStr ("DynamoDB 삭제 실패: " ++ e));
                       ("user_ern", JStr id) ]).
Proof.
  intros id reply. subst reply. unfold handle_scenario_unassign. fold id.
  destruct id as [|c u]; cbn [str_truthy negb run_delete].
  - split; [reflexivity|]. split.
    + cbn. split; [discriminate | intros [H _]; congruence].
    + intros e H. congruence.
  - split; [discriminate|]. split.
    + destruct (delete_item (JObj [("user_ern", JStr (String c u))]))
        as [[]|e]; cbn; split; try discriminate; auto.
      * intros _. split; [discriminate | reflexivity].
      * intros [_ H]. discriminate H.
    + intros e _ He. rewrite He. reflexivity.
Qed.

Lemma unassign_outcome_witness :
  handle_scenario_unassign (Some "")
  = ReplyNow (JObj [ ("error", JStr "user_ern is required") ])
  /\ run_delete (fun _ => Raise "unreachable")
       (handle_scenario_unassign (Some "X"))
     = JObj [ ("success", JBool false);
              ("error", JStr "DynamoDB 삭제 실패: unreachable");
              ("user_ern", JStr "X") ].
Proof.
  split.
  - apply (proj1 (unassign_outcome (Some "") (fun _ => Ok tt))). reflexivity.
  - apply (proj2 (proj2 (unassign_outcome (Some "X")
                           (fun _ => Raise "unreachable"))) "unreachable");
      [discriminate | reflexivity].
Defined.

(* ===================================================================== *)
(** ** Locating and loading the templates *)
(* ===================================================================== *)

Section LoaderFacts.

Variable Path : Type.
Variable path_of_string : string -> Path.
Variable path_join : Path -> string -> Path.

Local Abbreviation get_path :=
  (get_mock_itr_loader_path path_of_string path_join).
Local Abbreviation load := (load_templates path_of_string path_join).

Lemma get_path_keeps_templates (w : world Path) (g g1 : globals Path)
  (r : result Path) :
  get_path w g = (r, g1) -> TEMPLATES g1 = TEMPLATES g.
Proof.
  unfold get_mock_itr_loader_path. intro H.
  repeat match type of H with
         | context [match ?x with _ => _ end] => destruct x
         end; injection H as _ <-; reflexivity.
Qed.

(** X20. The loader path is looked for once: after a call that
    returned a path, every later call returns that same path without
    changing the globals, whatever the environment variable and the
    file system have become.  A call raises only while nothing is
    cached, the variable is empty or unset and the sibling directory
    is absent, and then it caches nothing. *)
Theorem loader_path_is_cached (w1 w2 : world Path) (g g1 : globals Path) :
  (forall p, get_path w1 g = (Ok p, g1) ->
     MOCK_ITR_LOADER_PATH g1 = Some p /\ get_path w2 g1 = (Ok p, g1))
  /\ (forall e, get_path w1 g = (Raise e, g1) ->
        g1 = g /\ MOCK_ITR_LOADER_PATH g = None
        /\ environ_MOCK_ITR_LOADER_PATH w1 = ""
        /\ path_exists w1 (path_join (current_dir w1) "mock-itrLoader")
           = false).
Proof.
  unfold get_mock_itr_loader_path. split.
  - intros p H. destruct (MOCK_ITR_LOADER_PATH g) as [p0|] eqn:Eg.
    + injection H as <- <-. rewrite Eg. split; reflexivity.
    + destruct (environ_MOCK_ITR_LOADER_PATH w1) as [|c s];
        cbn [str_truthy negb] in H.
      * destruct (path_exists w1 _); [|discriminate H].
        injection H as <- <-. split; reflexivity.
      * injection H as <- <-. split; reflexivity.
  - intros e H. destruct (MOCK_ITR_LOADER_PATH g) as [p0|] eqn:Eg;
      [discriminate H|].
    destruct (environ_MOCK_ITR_LOADER_PATH w1) as [|c s];
      cbn [str_truthy negb] in H; [|discriminate H].
    destruct (path_exists w1 _) eqn:Ex; [discriminate H|].
    injection H as _ <-. repeat split; assumption.
Qed.

(** X21. [load_templates] returns the global mapping, and a non-empty
    mapping is final: once a call has returned at least one template,
    every later call returns the same mapping and leaves the globals
    alone, whatever the file system holds by then; this includes a
    mapping left incomplete by a file that could not be read. *)
Theorem loaded_templates_are_final (w1 w2 : world Path)
  (g g1 : globals Path) (templates : dict json) :
  load w1 g = (templates, g1) ->
  TEMPLATES g1 = templates
  /\ (templates <> [] -> load w2 g1 = (templates, g1)).
Proof.
  unfold load_templates. intro H.
  assert (Hfinal : forall g', TEMPLATES g' = templates -> templates <> [] ->
            match TEMPLATES g' with
            | [] =>
                match get_mock_itr_loader_path path_of_string path_join
                        w2 g' with
                | (Ok mock_path, g'') =>
                    if negb (path_exists w2
                               (path_join (path_join mock_path "mock_lambda")
                                  "templates"))
                    then (TEMPLATES g'', g'')
                    else
                      (load_files
                         (glob_templates w2
                            (path_join (path_join mock_path "mock_lambda")
                               "templates")) (TEMPLATES g''),
                       {| TEMPLATES :=
                            load_files
                              (glob_templates w2
                                 (path_join
                                    (path_join mock_path "mock_lambda")
                                    "templates")) (TEMPLATES g'');
                          MOCK_ITR_LOADER_PATH := MOCK_ITR_LOADER_PATH g'' |})
                | (Raise _, g'') => (TEMPLATES g'', g'')
                end
            | _ :: _ => (TEMPLATES g', g')
            end = (templates, g')).
  { intros g' E Hne. rewrite E. destruct templates; [congruence|].
    reflexivity. }
  destruct (TEMPLATES g) as [|kv rest] eqn:Eg.
  - destruct (get_mock_itr_loader_path path_of_string path_join w1 g)
      as [[p|e] g'] eqn:Ep.
    + destruct (negb (path_exists w1 _)).
      * injection H as <- <-. split; [reflexivity|].
        intro Hne. apply Hfinal; [reflexivity | exact Hne].
      * injection H as <- <-. split; [reflexivity|].
        intro Hne. apply Hfinal; [reflexivity | exact Hne].
    + injection H as <- <-. split; [reflexivity|].
      intro Hne. apply Hfinal; [reflexivity | exact Hne].
  - injection H as <- <-. split; [exact Eg|].
    intro Hne. apply Hfinal; [exact Eg | exact Hne].
Qed.

Lemma dict_set_new {V : Type} (key : string) (value : V) (d : dict V) :
  ~ In key (dict_keys d) -> dict_set key value d = d ++ [(key, value)].
Proof.
  induction d as [|[k v] rest IH]; intro H; [reflexivity|].
  cbn [dict_set]. destruct (String.eqb k key) eqn:E.
  - apply String.eqb_eq in E. exfalso. apply H. left. exact E.
  - cbn [app]. f_equal. apply IH. intro Hin. apply H. right. exact Hin.
Qed.

Lemma load_files_readable (loaded : dict json)
  (tail : list (string * result json)) (templates : dict json) :
  NoDup (dict_keys templates ++ dict_keys loaded) ->
  load_files
    (map (fun entry => (fst entry, Ok (snd entry))) loaded ++ tail)
    templates
  = load_files tail (templates ++ loaded).
Proof.
  revert templates. induction loaded as [|[k v] rest IH]; intros templates H.
  - cbn [map app]. rewrite app_nil_r. reflexivity.
  - cbn [map app fst snd load_files].
    assert (Hk : ~ In k (dict_keys templates)).
    { intro Hin. cbn [dict_keys map fst] in H.
      apply NoDup_remove_2 in H. apply H. apply in_or_app. left. exact Hin. }
    rewrite (dict_set_new k v templates Hk). rewrite IH.
    + rewrite <- app_assoc. reflexivity.
    + unfold dict_keys in *. rewrite map_app, <- app_assoc. exact H.
Qed.

(** X22. With nothing cached, a path that resolves and an existing
    templates directory, [load_templates] returns the files read before
    the first one that fails to open or parse, under their stems and in
    the order of the directory listing; files after a failing one are
    not loaded, and with no failing file that is every file. *)
Theorem load_templates_reads_until_failure (w : world Path)
  (g g1 : globals Path) (mock_path : Path) (loaded : dict json)
  (tail : list (string * result json)) :
  TEMPLATES g = [] ->
  get_path w g = (Ok mock_path, g1) ->
  path_exists w (path_join (path_join mock_path "mock_lambda") "templates")
    = true ->
  glob_templates w (path_join (path_join mock_path "mock_lambda") "templates")
    = map (fun entry => (fst entry, Ok (snd entry))) loaded ++ tail ->
  NoDup (dict_keys loaded) ->
  match tail with
  | [] => True
  | (_, Ok _) :: _ => False
  | (_, Raise _) :: _ => True
  end ->
  fst (load w g) = loaded.
Proof.
  intros Hg Hp He Hl Hnd Htail. unfold load_templates.
  rewrite Hg. rewrite Hp, He. cbn [negb fst].
  rewrite Hl. rewrite (get_path_keeps_templates _ _ _ _ Hp), Hg.
  rewrite load_files_readable by exact Hnd.
  destruct tail as [|[stem [v|e]] rest]; [reflexivity | contradiction |].
  reflexivity.
Qed.

End LoaderFacts.

Lemma loader_path_is_cached_witness :
  let join := fun (p : string) (part : string) => (p ++ "/" ++ part)%string in
  let w1 := mk_world "/repo/mock-itrLoader" "/home" (fun _ => true)
              (fun _ => []) in
  let w2 := mk_world "/elsewhere" "/home" (fun _ => false) (fun _ => []) in
  let g1 := mk_globals [] (Some "/repo/mock-itrLoader") in
  get_mock_itr_loader_path (fun s => s) join w2 g1
  = (Ok "/repo/mock-itrLoader", g1).
Proof.
  intros join w1 w2 g1.
  apply (proj1 (loader_path_is_cached string (fun s => s) join w1 w2
                  (mk_globals [] None) g1) "/repo/mock-itrLoader" eq_refl).
Defined.

Lemma loaded_templates_are_final_witness :
  let join := fun (p : string) (part : string) => (p ++ "/" ++ part)%string in
  let w1 := mk_world "/repo" "/home" (fun _ => true)
              (fun _ => [ ("TPL_A", Ok (JObj []));
                          ("TPL_B", Raise "Expecting value");
                          ("TPL_C", Ok (JObj [])) ]) in
  let w2 := mk_world "/repo" "/home" (fun _ => true)
              (fun _ => [ ("TPL_A", Ok (JObj []));
                          ("TPL_B", Ok (JObj []));
                          ("TPL_C", Ok (JObj [])) ]) in
  let g1 := mk_globals [ ("TPL_A", JObj []) ] (Some "/repo") in
  load_templates (fun s => s) join w2 g1 = ([ ("TPL_A", JObj []) ], g1).
Proof.
  intros join w1 w2 g1.
  apply (proj2 (loaded_templates_are_final string (fun s => s) join w1 w2
                  (mk_globals [] None) g1 [ ("TPL_A", JObj []) ] eq_refl)).
  discriminate.
Defined.

Lemma load_templates_reads_until_failure_witness :
  let join := fun (p : string) (part : string) => (p ++ "/" ++ part)%string in
  let w := mk_world "/repo" "/home" (fun _ => true)
             (fun _ => [ ("TPL_B", Ok (JInt 2)); ("TPL_A", Ok (JInt 1));
                         ("TPL_X", Raise "Expecting value");
                         ("TPL_C", Ok (JInt 3)) ]) in
  fst (load_templates (fun s => s) join w (mk_globals [] None))
  = [ ("TPL_B", JInt 2); ("TPL_A", JInt 1) ].
Proof.
  intros join w.
  apply (load_templates_reads_until_failure string (fun s => s) join w
           (mk_globals [] None) (mk_globals [] (Some "/repo")) "/repo"
           [ ("TPL_B", JInt 2); ("TPL_A", JInt 1) ]
           [ ("TPL_X", Raise "Expecting value"); ("TPL_C", Ok (JInt 3)) ]);
    try reflexivity; try exact I.
  repeat constructor; cbn; intuition discriminate.
Defined.
